(** * release.py: the release script of pyo365

    A shallow embedding of [release.py] (the [build], [upload] and [list]
    commands and the version-file resolver [build_version_file]) together
    with the properties its specification states about them.

    The script is glue code around a working directory, two external tools
    and one HTTP request.  The embedding therefore has three layers:

    - [Py]: the pure Python built-ins the script calls on strings and
      integers ([str.split], [str.join], [int], [str], [str.format]);
    - [Os]: the working directory as a finite map from names to nodes, the
      exceptions of the script, and a state-and-exception monad that also
      records what the script does to the outside world;
    - [Release]: the functions of [release.py], line by line, over an
      arbitrary operator, arbitrary external tools and an arbitrary
      package index. *)

From Stdlib Require Import ZArith NArith Ascii String List Lia Bool.
From stdpp Require Import base option list strings gmap.

Local Open Scope string_scope.
Local Open Scope list_scope.
Set Warnings "-register-all".
Local Set Default Proof Using "Type".

(** ** Python built-ins on strings and integers *)

Module Py.

(** Python's [str] is modelled by [string]: a sequence of code points below
    256 (the Latin-1 range of Unicode). *)

Definition ord (c : ascii) : N := N_of_ascii c.

Definition is_dot (c : ascii) : bool := (ord c =? 46)%N.

(** [s.split('.')]: cut at every dot; the result always has at least one
    element, and an empty string yields one empty component. *)
Fixpoint split_dot (s : string) : list string :=
  match s with
  | EmptyString => [EmptyString]
  | String c r =>
      if is_dot c then EmptyString :: split_dot r
      else match split_dot r with
           | h :: t => String c h :: t
           | [] => [String c EmptyString]
           end
  end.

(** [sep.join(parts)]. *)
Fixpoint join (sep : string) (parts : list string) : string :=
  match parts with
  | [] => EmptyString
  | [p] => p
  | p :: rest => p +:+ sep +:+ join sep rest
  end.

(** *** [str(n)] for an [int] *)

Definition digit_char (d : N) : ascii := ascii_of_N (48 + d).

(** Decimal digits of a natural number, most significant first.  The fuel
    is the binary size of the number, which bounds its decimal size. *)
Fixpoint digits_of (fuel : nat) (n : N) : string :=
  match fuel with
  | O => EmptyString
  | S f =>
      (if (n <? 10)%N then EmptyString else digits_of f (n / 10)%N)
        +:+ String (digit_char (n mod 10)%N) EmptyString
  end.

Definition str_N (n : N) : string := digits_of (S (N.to_nat (N.size n))) n.

Definition str (z : Z) : string :=
  match z with
  | Zneg p => String "-"%char (str_N (Npos p))
  | _ => str_N (Z.to_N z)
  end.

(** *** [int(s)] for a [str]

    CPython first maps every non-ASCII white-space character to a blank
    (in the Latin-1 range: U+0085 and U+00A0) and then parses
    [ws* [+-]? digit (_? digit)* ws*], where [ws] is one of the six ASCII
    white-space characters.  Anything else raises [ValueError], which is
    [None] here. *)

Definition is_digit (c : ascii) : bool :=
  ((48 <=? ord c) && (ord c <=? 57))%N.

Definition digit_val (c : ascii) : N := (ord c - 48)%N.

Definition is_space (c : ascii) : bool :=
  let n := ord c in
  (((9 <=? n) && (n <=? 13)) || (n =? 32) || (n =? 133) || (n =? 160))%N.

Definition is_underscore (c : ascii) : bool := (ord c =? 95)%N.

Fixpoint all_space (s : string) : bool :=
  match s with
  | EmptyString => true
  | String c r => is_space c && all_space r
  end.

Fixpoint skip_space (s : string) : string :=
  match s with
  | String c r => if is_space c then skip_space r else s
  | EmptyString => s
  end.

(** The digit loop of [PyLong_FromString]: [acc] is the value read so far,
    [prev_us] tells whether the previous character was an underscore.  A
    doubled or trailing underscore is an error; the first character that is
    neither a digit nor an underscore ends the number, and only white space
    may follow it. *)
Fixpoint scan_digits (acc : N) (prev_us : bool) (s : string) : option N :=
  match s with
  | EmptyString => if prev_us then None else Some acc
  | String c r =>
      if is_digit c then scan_digits (10 * acc + digit_val c)%N false r
      else if is_underscore c then
        if prev_us then None else scan_digits acc true r
      else if prev_us then None
      else if all_space s then Some acc else None
  end.

Definition parse_unsigned (s : string) : option N :=
  match s with
  | String c r => if is_digit c then scan_digits (digit_val c) false r else None
  | EmptyString => None
  end.

Definition int (s : string) : option Z :=
  match skip_space s with
  | String c r =>
      if (ord c =? 45)%N then (fun n => (- Z.of_N n)%Z) <$> parse_unsigned r
      else if (ord c =? 43)%N then Z.of_N <$> parse_unsigned r
      else Z.of_N <$> parse_unsigned (String c r)
  | EmptyString => None
  end.



Fixpoint has_dot (s : string) : bool :=
  match s with
  | EmptyString => false
  | String c r => is_dot c || has_dot r
  end.

(** The characters an integer literal can be made of: digits, white
    space, the underscore and the two signs. *)
Definition is_int_char (c : ascii) : bool :=
  is_digit c || is_space c || is_underscore c
  || (ord c =? 43)%N || (ord c =? 45)%N.

Fixpoint has_foreign_char (s : string) : bool :=
  match s with
  | EmptyString => false
  | String c r => negb (is_int_char c) || has_foreign_char r
  end.

(** *** [str.format] with a fill-and-align field

    ['{:<w}'.format(s)] and ['{:>w}'.format(s)] pad [s] with blanks up to
    [w] characters and never truncate. *)

Fixpoint spaces (n : nat) : string :=
  match n with
  | O => EmptyString
  | S k => String " "%char (spaces k)
  end.

Definition ljust (w : nat) (s : string) : string :=
  s +:+ spaces (w - String.length s).

Definition rjust (w : nat) (s : string) : string :=
  spaces (w - String.length s) +:+ s.

End Py.

(** ** The working directory, exceptions and effects *)

Module Os.

(** Values that [json.load] and [response.json()] return.  [JNull] is
    Python's [None]; numbers are the integers (floats play no role in the
    script); an object keeps its keys in document order, as a Python
    [dict] does, and holds each key once. *)
Inductive json : Type :=
  | JNull
  | JBool (b : bool)
  | JNum (z : Z)
  | JStr (s : string)
  | JArr (items : list json)
  | JObj (fields : list (string * json)).

(** An entry of the working directory.  A regular file is seen through
    [json.load]: [File (Some j)] holds the JSON document [j], [File None]
    holds text that is not JSON. *)
Inductive node : Type :=
  | File (doc : option json)
  | Dir (children : list (string * node)).

Abbreviation fs := (gmap string node).

Inductive exn : Type :=
  | SystemExit (code : Z)
  | FileNotFoundError
  | FileExistsError
  | NotADirectoryError
  | IsADirectoryError
  | DirectoryNotEmpty
  | JSONDecodeError
  | AttributeError
  | ValueError
  | TypeError
  | IndexError
  | CalledProcessError (code : Z)
  | ConnectionError.

(** What the script did to the outside world, in order.  A subprocess
    event keeps the working directory the subprocess was started in. *)
Inductive event : Type :=
  | Confirm (prompt : string) (answer : bool)
  | Stdout (line : string)
  | Rename (src dst : string)
  | Rmtree (path : string)
  | Mkdir (path : string)
  | ReadFile (path : string)
  | WriteFile (path : string) (doc : json)
  | CheckCall (args : list string) (before : fs) (code : Z)
  | Popen (args : list string) (before : fs)
  | Wait (code : Z)
  | HttpGet (url : string)
  | ParseBody.

Record state : Type := State { cwd : fs; log : list event }.

Inductive result (A : Type) : Type :=
  | Ret (a : A)
  | Raise (e : exn).
Arguments Ret {A} a.
Arguments Raise {A} e.

Definition M (A : Type) : Type := state -> result A * state.

Definition ret {A} (a : A) : M A := fun s => (Ret a, s).

Definition bind {A B} (m : M A) (k : A -> M B) : M B :=
  fun s =>
    match m s with
    | (Ret a, s') => k a s'
    | (Raise e, s') => (Raise e, s')
    end.

Definition raise {A} (e : exn) : M A := fun s => (Raise e, s).

Definition emit (e : event) : M unit :=
  fun s => (Ret tt, State (cwd s) (log s ++ [e])).

Definition get_cwd : M fs := fun s => (Ret (cwd s), s).

Definition put_cwd (m : fs) : M unit := fun s => (Ret tt, State m (log s)).

Notation "'let*' x ':=' c 'in' k" := (bind c (fun x => k))
  (at level 10, x name, c at level 100, k at level 200).
Notation "c >> k" := (bind c (fun _ => k))
  (at level 100, k at level 200, right associativity).

(** [for x in xs: body]. *)
Fixpoint for_each {A} (xs : list A) (body : A -> M unit) : M unit :=
  match xs with
  | [] => ret tt
  | x :: rest => body x >> for_each rest body
  end.

(** A loop that carries local variables [acc] from one round to the next. *)
Fixpoint fold_each {A B} (xs : list A) (acc : B) (body : B -> A -> M B) : M B :=
  match xs with
  | [] => ret acc
  | x :: rest => let* acc' := body acc x in fold_each rest acc' body
  end.

(** The exit status of the process for a command that ended with [r]:
    [sys.exit(n)] exits with [n], an uncaught exception with 1. *)
Definition exit_status {A} (r : result A) : Z :=
  match r with
  | Ret _ => 0
  | Raise (SystemExit n) => n
  | Raise _ => 1
  end.

(** *** pathlib and shutil *)

(** [Path(p).exists()]. *)
Definition path_exists (p : string) : M bool :=
  let* m := get_cwd in ret (bool_decide (is_Some (m !! p))).

(** [list(Path(p).glob('*'))]: the names in the directory, dot files
    included; nothing for a regular file or a missing path. *)
Definition glob_star (p : string) : M (list string) :=
  let* m := get_cwd in
  ret (match m !! p with
       | Some (Dir children) => fst <$> children
       | _ => []
       end).

(** [Path(src).rename(dst)], that is rename(2): a directory replaces an
    empty directory and nothing else; a file replaces a file. *)
Definition rename (src dst : string) : M unit :=
  let* m := get_cwd in
  match m !! src with
  | None => raise FileNotFoundError
  | Some n =>
      if bool_decide (src = dst) then ret tt
      else
        let move := put_cwd (<[dst := n]> (delete src m)) >> emit (Rename src dst) in
        match n, m !! dst with
        | _, None => move
        | Dir _, Some (Dir []) => move
        | Dir _, Some (Dir (_ :: _)) => raise DirectoryNotEmpty
        | Dir _, Some (File _) => raise NotADirectoryError
        | File _, Some (File _) => move
        | File _, Some (Dir _) => raise IsADirectoryError
        end
  end.

(** [shutil.rmtree(Path(p))]. *)
Definition rmtree (p : string) : M unit :=
  let* m := get_cwd in
  match m !! p with
  | None => raise FileNotFoundError
  | Some (File _) => raise NotADirectoryError
  | Some (Dir _) => put_cwd (delete p m) >> emit (Rmtree p)
  end.

(** [Path(p).mkdir()]. *)
Definition mkdir (p : string) : M unit :=
  let* m := get_cwd in
  match m !! p with
  | Some _ => raise FileExistsError
  | None => put_cwd (<[p := Dir []]> m) >> emit (Mkdir p)
  end.

(** [with Path(p).open('r') as f: json.load(f)]. *)
Definition json_load (p : string) : M json :=
  let* m := get_cwd in
  match m !! p with
  | None => raise FileNotFoundError
  | Some (Dir _) => raise IsADirectoryError
  | Some (File None) => emit (ReadFile p) >> raise JSONDecodeError
  | Some (File (Some j)) => emit (ReadFile p) >> ret j
  end.

(** [with Path(p).open('w') as f: json.dump(j, f)]. *)
Definition json_dump (p : string) (j : json) : M unit :=
  let* m := get_cwd in
  match m !! p with
  | Some (Dir _) => raise IsADirectoryError
  | _ => put_cwd (<[p := File (Some j)]> m) >> emit (WriteFile p j)
  end.

(** [print(line)] and [click.echo(line)]. *)
Definition print (line : string) : M unit := emit (Stdout line).

(** *** Python operations on JSON values *)

Fixpoint assoc {V} (k : string) (kvs : list (string * V)) : option V :=
  match kvs with
  | [] => None
  | (k', v) :: rest => if String.eqb k k' then Some v else assoc k rest
  end.

(** [d.get(k, default)]; [d.get(k)] is [dict_get d k JNull].  Only a
    [dict] has [get]. *)
Definition dict_get (d : json) (k : string) (default : json) : M json :=
  match d with
  | JObj fields => ret (from_option id default (assoc k fields))
  | _ => raise AttributeError
  end.

(** [d.items()]. *)
Definition dict_items (d : json) : M (list (string * json)) :=
  match d with
  | JObj fields => ret fields
  | _ => raise AttributeError
  end.

(** [v.split('.')]: only a [str] has [split]. *)
Definition str_split (v : json) : M (list string) :=
  match v with
  | JStr s => ret (Py.split_dot s)
  | _ => raise AttributeError
  end.

(** [bool(v)], the test of [if v:]. *)
Definition truthy (v : json) : bool :=
  match v with
  | JNull => false
  | JBool b => b
  | JNum z => negb (z =? 0)%Z
  | JStr s => negb (String.eqb s "")
  | JArr items => negb (bool_decide (items = []))
  | JObj fields => negb (bool_decide (fields = []))
  end.

Fixpoint chars (s : string) : list json :=
  match s with
  | EmptyString => []
  | String c r => JStr (String c EmptyString) :: chars r
  end.

(** [for x in v]: the items of a list, the characters of a string, the keys
    of a dict; nothing else can be iterated. *)
Definition iterate (v : json) : M (list json) :=
  match v with
  | JArr items => ret items
  | JStr s => ret (chars s)
  | JObj fields => ret (JStr <$> (fst <$> fields))
  | _ => raise TypeError
  end.

(** [sep.join(items)]: every item must be a [str]. *)
Definition str_join (sep : string) (items : list json) : M string :=
  match mapM (fun v => match v with JStr s => Some s | _ => None end) items with
  | Some parts => ret (Py.join sep parts)
  | None => raise TypeError
  end.

(** ['{:>w}'.format(v)].  [None], lists and dicts do not accept a format
    specification; a [bool] is formatted as the integer it is. *)
Definition format_right (w : nat) (v : json) : M string :=
  match v with
  | JStr s => ret (Py.rjust w s)
  | JNum z => ret (Py.rjust w (Py.str z))
  | JBool b => ret (Py.rjust w (if b then "1" else "0"))
  | JNull | JArr _ | JObj _ => raise TypeError
  end.

(** *** The outside world

    The operator at the terminal, the programs on the PATH and the package
    index are not part of the script.  A [world] fixes how they answer:
    - [operator prompt] is the answer typed at a yes/no prompt;
    - [tool args m] runs the program [args] in the working directory [m]
      and gives the directory it leaves behind and its exit status, or
      [None] when the program cannot be started;
    - [index url] is the response of the server, or [None] when no
      connection can be made. *)

Record response : Type := Response { status_code : Z; body : option json }.

Record world : Type := World {
  operator : string -> bool;
  tool : list string -> fs -> option (fs * Z);
  index : string -> option response
}.

(** A started subprocess: what it will have done when it terminates. *)
Record process : Type := Process { proc_after : fs; returncode : Z }.

Section Effects.
Variable w : world.

(** [click.confirm(prompt)]. *)
Definition click_confirm (prompt : string) : M bool :=
  let answer := operator w prompt in
  emit (Confirm prompt answer) >> ret answer.

(** [subprocess.check_call(args)]: run to completion, raise on a non-zero
    exit status. *)
Definition check_call (args : list string) : M unit :=
  let* m := get_cwd in
  match tool w args m with
  | None => raise FileNotFoundError
  | Some (m', code) =>
      put_cwd m' >> emit (CheckCall args m code) >>
      if (code =? 0)%Z then ret tt else raise (CalledProcessError code)
  end.

(** [subprocess.Popen(args, env=env)]. *)
Definition popen (args : list string) : M process :=
  let* m := get_cwd in
  match tool w args m with
  | None => raise FileNotFoundError
  | Some (m', code) => emit (Popen args m) >> ret (Process m' code)
  end.

(** [p.wait()]: block until the subprocess has terminated; the value is
    its exit status. *)
Definition wait (p : process) : M Z :=
  put_cwd (proc_after p) >> emit (Wait (returncode p)) >> ret (returncode p).

(** [requests.get(url)]. *)
Definition requests_get (url : string) : M response :=
  match index w url with
  | None => raise ConnectionError
  | Some r => emit (HttpGet url) >> ret r
  end.

End Effects.

(** [bool(response)], that is [response.ok]: [raise_for_status] would not
    raise, which it does for the 4xx and 5xx codes. *)
Definition response_ok (r : response) : bool :=
  negb ((400 <=? status_code r) && (status_code r <? 600))%Z.

(** [response.json()]. *)
Definition response_json (r : response) : M json :=
  emit ParseBody >>
  match body r with
  | Some j => ret j
  | None => raise JSONDecodeError
  end.

(** [sys.exit(n)]. *)
Definition sys_exit {A} (n : Z) : M A := raise (SystemExit n).

End Os.

(** ** release.py *)

Module Release.
Import Os.

Definition dquote : string := String "034"%char EmptyString.

Definition PYPI_PACKAGE_NAME : string := "pyo365".
Definition PYPI_URL (package : string) : string :=
  "https://pypi.org/pypi/" +:+ package +:+ "/json".
Definition DIST_PATH : string := "dist".
Definition DIST_PATH_DELETE : string := "dist_delete".
Definition VERSION_FILE_NAME : string := "version.json".

Definition NO_DIST_FILES : string :=
  "No distribution files found. Please run 'build' command first".
Definition NOT_FOUND : string :=
  "Package " +:+ dquote +:+ PYPI_PACKAGE_NAME +:+ dquote +:+ " not found on Pypi.org".
Definition NO_RELEASES : string :=
  "No releases found for " +:+ PYPI_PACKAGE_NAME.

(** [[int(part) for part in parts]]. *)
Definition int_all (parts : list string) : M (list Z) :=
  match mapM Py.int parts with
  | Some ns => ret ns
  | None => raise ValueError
  end.

(** [version_parts[-1] += 1]. *)
Fixpoint incr_last (version_parts : list Z) : option (list Z) :=
  match version_parts with
  | [] => None
  | [z] => Some [(z + 1)%Z]
  | z :: rest => cons z <$> incr_last rest
  end.

(** The document [{'version': v}]. *)
Definition version_doc (v : string) : json := JObj [("version", JStr v)].

Definition build_version_file (provided_version : string) : M unit :=
  let* provided_version :=
    if String.eqb provided_version "auto" then
      let* version := json_load VERSION_FILE_NAME in
      let* current_version := dict_get version "version" JNull in
      let* parts := str_split current_version in
      let* version_parts := int_all parts in
      match incr_last version_parts with
      | None => raise IndexError
      | Some version_parts => ret (Py.join "." (Py.str <$> version_parts))
      end
    else ret provided_version in
  json_dump VERSION_FILE_NAME (version_doc provided_version).

Definition WHEEL_ARGS : list string := ["python"; "setup.py"; "bdist_wheel"].
Definition SDIST_ARGS : list string := ["python"; "setup.py"; "sdist"; "--formats=gztar"].

Section Commands.
Variable w : world.

(** [dist_path.exists() and list(dist_path.glob('*'))], as a truth value. *)
Definition dist_has_entries : M bool :=
  let* found := path_exists DIST_PATH in
  if found then
    let* entries := glob_star DIST_PATH in
    ret (negb (bool_decide (entries = [])))
  else ret false.

Definition build (force : bool) (version : string) : M unit :=
  let* occupied := dist_has_entries in
  (if occupied then
     let* clear :=
       if force then ret true
       else click_confirm w (DIST_PATH +:+ " is not empty - delete contents?") in
     if clear then
       rename DIST_PATH DIST_PATH_DELETE >>
       rmtree DIST_PATH_DELETE >>
       mkdir DIST_PATH
     else
       print "Aborting" >>
       sys_exit 1
   else ret tt) >>
  (if negb (String.eqb version "") then build_version_file version else ret tt) >>
  check_call w WHEEL_ARGS >>
  check_call w SDIST_ARGS.

Definition TEST_REPOSITORY : string := "https://test.pypi.org/legacy/".

Definition twine_args (release : bool) : list string :=
  if release then ["twine"; "upload"; "dist/*"]
  else ["twine"; "upload"; "--repository-url"; TEST_REPOSITORY; "dist/*"].

Definition upload (release rebuild : bool) (version : string) : M unit :=
  let run_twine :=
    let* p := popen w (twine_args release) in
    wait p >> ret tt in
  if negb rebuild then
    let* occupied := dist_has_entries in
    if negb occupied then print NO_DIST_FILES
    else run_twine
  else
    build true version >> run_twine.

Definition check : M unit :=
  let* occupied := dist_has_entries in
  if negb occupied then print NO_DIST_FILES
  else check_call w ["twine"; "check"; "dist/*"].

(** ['{:<10}{:>15}{:>25}'.format(version, published_on_date, release_formats)]. *)
Definition format_line (version : string) (published_on_date : json)
    (release_formats : string) : M string :=
  let* date := format_right 15 published_on_date in
  ret (Py.ljust 10 version +:+ date +:+ Py.rjust 25 release_formats).

(** The body of [for fmt in release], on the local variables
    [release_formats] and [published_on_date]. *)
Definition scan_artifact (locals : list json * json) (fmt : json)
    : M (list json * json) :=
  let '(release_formats, published_on_date) := locals in
  let* packagetype := dict_get fmt "packagetype" JNull in
  let* upload_time := dict_get fmt "upload_time" JNull in
  ret (release_formats ++ [packagetype], upload_time).

(** The body of [for version, release in releases_dict.items()]. *)
Definition list_release (item : string * json) : M unit :=
  let '(version, release) := item in
  let* artifacts := iterate release in
  let* scanned := fold_each artifacts ([], JNull) scan_artifact in
  let '(release_formats, published_on_date) := scanned in
  let* release_formats := str_join " | " release_formats in
  let* line := format_line version published_on_date release_formats in
  print line.

Definition list_releases : M unit :=
  let* response := requests_get w (PYPI_URL PYPI_PACKAGE_NAME) in
  if response_ok response then
    let* data := response_json response in
    let* releases_dict := dict_get data "releases" (JObj []) in
    if truthy releases_dict then
      let* items := dict_items releases_dict in
      for_each items list_release
    else print NO_RELEASES
  else print NOT_FOUND.

End Commands.

(** Running a command from a working directory with an empty log. *)
Definition run {A} (c : M A) (m : fs) : result A * state := c (State m []).

End Release.

(** ** Vocabulary of the properties *)

Module Obs.
Import Os Release.


(** Events of the directory preparation of [build]: asking the operator,
    and renaming, deleting or creating a directory. *)
Definition is_prep_event (e : event) : bool :=
  match e with
  | Confirm _ _ | Rename _ _ | Rmtree _ | Mkdir _ => true
  | _ => false
  end.

(** Events that start an external program. *)
Definition is_tool_event (e : event) : bool :=
  match e with
  | CheckCall _ _ _ | Popen _ _ => true
  | _ => false
  end.

(** The working directory in which the first external program of a log was
    started, if any was. *)
Fixpoint first_tool_start (l : list event) : option fs :=
  match l with
  | [] => None
  | CheckCall _ before _ :: _ => Some before
  | Popen _ before :: _ => Some before
  | _ :: rest => first_tool_start rest
  end.

(** A directory with at least one entry. *)
Definition occupied_dir (m : fs) (p : string) : Prop :=
  exists name n children, m !! p = Some (Dir ((name, n) :: children)).

(** Nothing at [p], or a directory without entries. *)
Definition absent_or_empty (m : fs) (p : string) : Prop :=
  m !! p = None \/ m !! p = Some (Dir []).


(** The question [build] asks before it deletes anything. *)
Definition confirm_prompt : string :=
  DIST_PATH +:+ " is not empty - delete contents?".

(** Lines 56 to 58 of [build]: clearing the output directory. *)
Definition clear_dist : M unit :=
  rename DIST_PATH DIST_PATH_DELETE >>
  rmtree DIST_PATH_DELETE >>
  mkdir DIST_PATH.

(** Lines 63 to 68 of [build]: what is left of it once the output
    directory has been dealt with. *)
Definition build_after_preparation (w : world) (version : string) : M unit :=
  (if negb (String.eqb version "") then build_version_file version else ret tt) >>
  check_call w WHEEL_ARGS >>
  check_call w SDIST_ARGS.

(** Lines 87 to 96 of [upload]: starting twine and waiting for it. *)
Definition upload_step (w : world) (release : bool) : M unit :=
  let* p := popen w (twine_args release) in
  wait p >> ret tt.

(** The label and the upload time of a well-formed artifact descriptor: a
    dict whose ['packagetype'] and ['upload_time'] are strings. *)
Definition artifact_fields (fmt : json) : option (string * string) :=
  match fmt with
  | JObj fields =>
      match assoc "packagetype" fields, assoc "upload_time" fields with
      | Some (JStr label), Some (JStr time) => Some (label, time)
      | _, _ => None
      end
  | _ => None
  end.

(** The line of a version whose descriptors carry [descs]: the version,
    the upload time of the last descriptor, the labels in list order. *)
Definition release_line (version : string) (descs : list (string * string))
    : option string :=
  match last descs with
  | Some (_, time) =>
      Some (Py.ljust 10 version +:+ Py.rjust 15 time
              +:+ Py.rjust 25 (Py.join " | " (fst <$> descs)))
  | None => None
  end.

(** The line of one item of the releases mapping, when the item is a list
    of well-formed descriptors that is not empty. *)
Definition item_line (item : string * json) : option string :=
  match item with
  | (version, JArr artifacts) =>
      match mapM artifact_fields artifacts with
      | Some descs => release_line version descs
      | None => None
      end
  | _ => None
  end.

End Obs.

(** ** Sample worlds and working directories *)

Module Sample.
Import Os Release.

(** [setup.py] leaves one artifact in [dist] and succeeds; [twine] fails
    with status 1 and changes nothing. *)
Definition tools (args : list string) (m : fs) : option (fs * Z) :=
  if bool_decide (head args = Some "twine") then Some (m, 1%Z)
  else Some (<["dist" := Dir [("pyo365.tar.gz", File None)]]> m, 0%Z).

Definition example_releases : json :=
  JObj [("releases",
         JObj [("1.0.0",
                JArr [JObj [("packagetype", JStr "sdist");
                            ("upload_time", JStr "2020-01-01T00:00:00")];
                      JObj [("packagetype", JStr "bdist_wheel");
                            ("upload_time", JStr "2020-01-01T00:05:00")]])])].

(** A release without files listed before the release 1.0.0. *)
Definition releases_with_empty : json :=
  JObj [("releases",
         JObj [("0.9.0", JArr []);
               ("1.0.0",
                JArr [JObj [("packagetype", JStr "sdist");
                            ("upload_time", JStr "2020-01-01T00:00:00")];
                      JObj [("packagetype", JStr "bdist_wheel");
                            ("upload_time", JStr "2020-01-01T00:05:00")]])])].

(** The operator answers no; the index knows the package. *)
Definition published : world :=
  World (fun _ => false) tools (fun _ => Some (Response 200 (Some example_releases))).

(** The index answers 404 with an HTML page. *)
Definition unpublished : world :=
  World (fun _ => false) tools (fun _ => Some (Response 404 None)).

Definition with_empty_release : world :=
  World (fun _ => false) tools (fun _ => Some (Response 200 (Some releases_with_empty))).

(** A checkout with artifacts of an earlier build. *)
Definition after_build : fs :=
  {[ "dist" := Dir [("pyo365-1.2.9.tar.gz", File None)];
     "version.json" := File (Some (version_doc "1.2.9")) ]}.

(** A checkout without an output directory. *)
Definition fresh : fs :=
  {[ "version.json" := File (Some (version_doc "1.2.9")) ]}.

End Sample.

(** ** Vocabulary of the further properties *)

Module Props.
Import Os Release Obs.

(** The string under ['version'] in the version file, when the file is a
    JSON object that holds a string there. *)
Definition stored_version (m : fs) : option string :=
  match m !! VERSION_FILE_NAME with
  | Some (File (Some (JObj fields))) =>
      match assoc "version" fields with
      | Some (JStr v) => Some v
      | _ => None
      end
  | _ => None
  end.

Definition is_file_event (e : event) : bool :=
  match e with
  | ReadFile _ | WriteFile _ _ => true
  | _ => false
  end.

Definition is_confirm_event (e : event) : bool :=
  match e with
  | Confirm _ _ => true
  | _ => false
  end.

(** Events that take something away from the working directory. *)
Definition is_removal_event (e : event) : bool :=
  match e with
  | Rename _ _ | Rmtree _ => true
  | _ => false
  end.

(** Starting a subprocess without waiting for it, as the upload step
    does. *)
Definition is_popen_event (e : event) : bool :=
  match e with
  | Popen _ _ => true
  | _ => false
  end.

(** A command whose run does not depend on what has been logged before
    it: started with the log [l] it does what it does with an empty log,
    and appends to [l]. *)
Definition log_blind {A} (c : M A) : Prop :=
  forall m l,
    c (State m l)
    = ((c (State m [])).1,
       State (cwd (c (State m [])).2) (l ++ log (c (State m [])).2)).

(** A command that leaves the working directory as it is, however it
    ends. *)
Definition keeps_cwd {A} (c : M A) : Prop :=
  forall s, cwd (c s).2 = cwd s.

End Props.

(** ** Further sample worlds and working directories *)

Module Cases.
Import Os Release.

(** A version file that is not JSON. *)
Definition corrupt : fs := {[ "version.json" := File None ]}.

(** A version file without the key ['version']. *)
Definition no_version_key : fs :=
  {[ "version.json" := File (Some (JObj [("name", JStr "pyo365")])) ]}.


(** No version file at all. *)
Definition empty_checkout : fs := ∅.

(** Artifacts of an earlier build, and what is left of an interrupted
    clearing. *)
Definition interrupted : fs :=
  {[ "dist" := Dir [("pyo365-1.2.9.tar.gz", File None)];
     "dist_delete" := Dir [("pyo365-1.2.8.tar.gz", File None)];
     "version.json" := File (Some (version_doc "1.2.9")) ]}.

(** [setup.py bdist_wheel] fails with status 2; everything else succeeds
    and changes nothing. *)
Definition wheel_fails (args : list string) (m : fs) : option (fs * Z) :=
  if bool_decide (args = WHEEL_ARGS) then Some (m, 2%Z) else Some (m, 0%Z).

(** [setup.py] leaves one artifact in [dist]; [twine] is not installed. *)
Definition no_twine (args : list string) (m : fs) : option (fs * Z) :=
  if bool_decide (head args = Some "twine") then None
  else Some (<["dist" := Dir [("pyo365.tar.gz", File None)]]> m, 0%Z).

(** Every tool succeeds and changes nothing. *)
Definition quiet (args : list string) (m : fs) : option (fs * Z) :=
  Some (m, 0%Z).

Definition agreeing : world :=
  World (fun _ => true) Sample.tools (fun _ => None).

Definition broken_wheel : world :=
  World (fun _ => false) wheel_fails (fun _ => None).

Definition twine_missing : world :=
  World (fun _ => false) no_twine (fun _ => None).

Definition all_quiet : world :=
  World (fun _ => false) quiet (fun _ => None).

(** A successful response without releases. *)
Definition nothing_published : world :=
  World (fun _ => false) quiet
    (fun _ => Some (Response 200 (Some (JObj [("releases", JObj [])])))).

End Cases.

Example split_dot_ex : Py.split_dot "1.20..x" = ["1"; "20"; ""; "x"].
Proof. reflexivity. Qed.
Example str_ex : map Py.str [0; 7; 10; 1234; -56]%Z = ["0"; "7"; "10"; "1234"; "-56"].
Proof. vm_compute. reflexivity. Qed.
Example int_foreign_ex :
  map Py.has_foreign_char ["3rc1"; "x"; "1,5"; "12"; " 7 "] = [true; true; true; false; false].
Proof. vm_compute. reflexivity. Qed.
Example int_ex :
  map Py.int ["12"; " +3 "; "-4"; "1_000"; "03"; ""; "1__0"; "_1"; "1_"; "3rc1"; "- 3"; "1 2"]
  = [Some 12; Some 3; Some (-4); Some 1000; Some 3; None; None; None; None; None; None; None]%Z.
Proof. vm_compute. reflexivity. Qed.

(** ** Facts about the Python built-ins *)

Section PyFacts.
Import Py.







Lemma has_dot_app s1 s2 : has_dot (s1 +:+ s2) = has_dot s1 || has_dot s2.
Proof.
  induction s1 as [|c r IH]; simpl; [reflexivity|].
  rewrite IH. apply orb_assoc.
Qed.














(** A string with a character that no integer literal contains (a letter,
    a dot, ...) is rejected by [int]. *)
Lemma all_space_foreign s : has_foreign_char s = true -> all_space s = false.
Proof.
  induction s as [|c r IH]; simpl; [discriminate|].
  unfold is_int_char. intros H.
  destruct (is_space c); [|reflexivity]. simpl.
  rewrite orb_true_r in H. simpl in H. apply IH, H.
Qed.

Lemma scan_digits_foreign s :
  forall acc prev_us, has_foreign_char s = true -> scan_digits acc prev_us s = None.
Proof.
  induction s as [|c r IH]; intros acc prev_us H; [discriminate|].
  pose proof (all_space_foreign _ H) as Hsp.
  cbn [scan_digits]. cbn [has_foreign_char] in H. unfold is_int_char in H.
  destruct (is_digit c); [apply IH; exact H|].
  destruct (is_underscore c).
  { destruct prev_us; [reflexivity|]. apply IH.
    rewrite orb_true_r in H. exact H. }
  destruct prev_us; [reflexivity|]. rewrite Hsp. reflexivity.
Qed.

Lemma skip_space_foreign s :
  has_foreign_char s = true -> has_foreign_char (skip_space s) = true.
Proof.
  induction s as [|c r IH]; [discriminate|]. intros H.
  cbn [skip_space]. destruct (is_space c) eqn:Hc; [|exact H].
  apply IH. cbn [has_foreign_char] in H. unfold is_int_char in H.
  rewrite Hc, orb_true_r in H. exact H.
Qed.

Lemma parse_unsigned_foreign s :
  has_foreign_char s = true -> parse_unsigned s = None.
Proof.
  destruct s as [|c r]; [reflexivity|]. intros H.
  cbn [parse_unsigned]. destruct (is_digit c) eqn:Hc; [|reflexivity].
  apply scan_digits_foreign. cbn [has_foreign_char] in H.
  unfold is_int_char in H. rewrite Hc in H. exact H.
Qed.

Lemma int_rejects_foreign_char s : has_foreign_char s = true -> int s = None.
Proof.
  intros H. apply skip_space_foreign in H. unfold int.
  destruct (skip_space s) as [|c r]; [reflexivity|].
  pose proof (parse_unsigned_foreign _ H) as Hall.
  cbn [has_foreign_char] in H. unfold is_int_char in H.
  destruct (ord c =? 45)%N eqn:Hminus.
  { rewrite !orb_true_r in H. rewrite parse_unsigned_foreign by exact H.
    reflexivity. }
  destruct (ord c =? 43)%N eqn:Hplus.
  { rewrite !orb_true_r in H. rewrite parse_unsigned_foreign by exact H.
    reflexivity. }
  rewrite Hall. reflexivity.
Qed.







End PyFacts.

(** ** The version resolver *)

Section VersionFile.
Import Os Release Obs.



(** An explicit version is stored as it is. *)
Lemma build_version_file_explicit s version :
  version <> "auto" ->
  (forall children, cwd s !! VERSION_FILE_NAME <> Some (Dir children)) ->
  build_version_file version s =
    (Ret tt,
     State (<[VERSION_FILE_NAME := File (Some (version_doc version))]> (cwd s))
           (log s ++ [WriteFile VERSION_FILE_NAME (version_doc version)])).
Proof.
  intros Hne Hfile.
  unfold build_version_file, json_dump, bind, get_cwd.
  apply String.eqb_neq in Hne. rewrite Hne. cbn.
  destruct (cwd s !! VERSION_FILE_NAME) as [[doc|children]|] eqn:E;
    try reflexivity.
  exfalso. exact (Hfile children eq_refl).
Qed.

(** A component that [int] rejects stops the resolver before it writes. *)
Lemma build_version_file_malformed s fields v :
  cwd s !! VERSION_FILE_NAME = Some (File (Some (JObj fields))) ->
  assoc "version" fields = Some (JStr v) ->
  Exists (fun part => Py.int part = None) (Py.split_dot v) ->
  build_version_file "auto" s =
    (Raise ValueError, State (cwd s) (log s ++ [ReadFile VERSION_FILE_NAME])).
Proof.
  intros Hfile Hver Hbad. apply mapM_None in Hbad.
  unfold build_version_file, json_load, int_all, bind, get_cwd.
  cbn. rewrite Hfile. cbn. rewrite Hver. cbn. rewrite Hbad. reflexivity.
Qed.






(** C7.  For every stored version string with a dot-separated component
    that [int] does not accept, the version resolver run with 'auto' raises
    [ValueError] out of the resolver; the version file is not written and
    the working directory is as before. *)
Theorem malformed_version_fails_fast (m : fs) fields v :
  m !! VERSION_FILE_NAME = Some (File (Some (JObj fields))) ->
  assoc "version" fields = Some (JStr v) ->
  Exists (fun part => Py.int part = None) (Py.split_dot v) ->
  run (build_version_file "auto") m
  = (Raise ValueError, State m [ReadFile VERSION_FILE_NAME]).
Proof.
  intros Hfile Hver Hbad. unfold run.
  rewrite (build_version_file_malformed _ fields v); auto.
Qed.

(** Components that [int] accepts in another spelling are stored in their
    decimal form: leading zeros, blanks and underscores go. *)
Example auto_increment_normalises :
  (run (build_version_file "auto")
       {[ "version.json" := File (Some (JObj [("version", JStr "01. 2.1_0")])) ]}).1
  = Ret tt /\
  cwd (run (build_version_file "auto")
         {[ "version.json" := File (Some (JObj [("version", JStr "01. 2.1_0")])) ]}).2
    !! "version.json"
  = Some (File (Some (JObj [("version", JStr "1.2.11")]))).
Proof. split; vm_compute; reflexivity. Qed.

Lemma malformed_version_fails_fast_witness :
  run (build_version_file "auto")
      {[ "version.json" := File (Some (JObj [("version", JStr "1.2.3rc1")])) ]}
  = (Raise ValueError,
     State {[ "version.json" := File (Some (JObj [("version", JStr "1.2.3rc1")])) ]}
           [ReadFile "version.json"]).
Proof.
  apply (malformed_version_fails_fast _ [("version", JStr "1.2.3rc1")] "1.2.3rc1").
  - reflexivity.
  - reflexivity.
  - apply Exists_cons_tl, Exists_cons_tl, Exists_cons_hd. reflexivity.
Defined.

End VersionFile.

(** ** The build command *)

Section Build.
Import Os Release Obs.
Variable w : world.

Lemma dist_has_entries_spec s :
  dist_has_entries s =
    (Ret (match cwd s !! DIST_PATH with
          | Some (Dir (_ :: _)) => true
          | _ => false
          end), s).
Proof.
  unfold dist_has_entries, path_exists, glob_star, bind, get_cwd, ret.
  destruct s as [m l]. cbn.
  destruct (m !! DIST_PATH) as [[doc|[|[name n] children]]|] eqn:E; cbn;
    try rewrite E; try reflexivity.
Qed.

Lemma check_call_spec args s :
  check_call w args s =
    match tool w args (cwd s) with
    | None => (Raise FileNotFoundError, s)
    | Some (m', code) =>
        (if (code =? 0)%Z then Ret tt else Raise (CalledProcessError code),
         State m' (log s ++ [CheckCall args (cwd s) code]))
    end.
Proof.
  unfold check_call, bind, get_cwd, put_cwd, emit, ret, raise. cbn.
  destruct (tool w args (cwd s)) as [[m' code]|]; [|reflexivity].
  cbn. destruct (code =? 0)%Z; reflexivity.
Qed.

(** The resolver touches nothing but the version file, and what it logs are
    reads and writes of that file. *)
Lemma build_version_file_frame version s :
  exists r m' l',
    build_version_file version s = (r, State m' (log s ++ l')) /\
    (forall p, p <> VERSION_FILE_NAME -> m' !! p = cwd s !! p) /\
    Forall (fun e => is_prep_event e = false /\ is_tool_event e = false) l'.
Proof.
  destruct s as [m l].
  unfold build_version_file, json_load, json_dump, dict_get, str_split,
    int_all, bind, get_cwd, put_cwd, emit, ret, raise.
  cbn [cwd log].
  repeat case_match; simplify_eq; cbn [cwd log];
    repeat (rewrite <- app_assoc; cbn [app]);
    first
      [ (eexists _, _, []; rewrite app_nil_r;
         split; [reflexivity|]; split; [|constructor]; intros p Hp;
         (reflexivity || by rewrite lookup_insert_ne))
      | (eexists _, _, [_]; split; [reflexivity|]; split;
         [intros p Hp; (reflexivity || by rewrite lookup_insert_ne)
         |repeat constructor])
      | (eexists _, _, [_; _]; split; [reflexivity|]; split;
         [intros p Hp; (reflexivity || by rewrite lookup_insert_ne)
         |repeat constructor]) ].
Qed.

Lemma first_tool_start_app l1 l2 :
  Forall (fun e => is_tool_event e = false) l1 ->
  first_tool_start (l1 ++ l2) = first_tool_start l2.
Proof.
  induction 1 as [|e l1 He _ IH]; [reflexivity|].
  destruct e; try discriminate; exact IH.
Qed.

Lemma first_tool_start_none l :
  Forall (fun e => is_tool_event e = false) l -> first_tool_start l = None.
Proof.
  intros H. rewrite <- (app_nil_r l). rewrite first_tool_start_app by exact H.
  reflexivity.
Qed.

(** What is left of [build] after the preparation logs no preparation
    event, and its first tool starts in a directory that differs from the
    one it began with in the version file at most. *)
Lemma build_after_preparation_frame version s :
  exists r m' l',
    build_after_preparation w version s = (r, State m' (log s ++ l')) /\
    Forall (fun e => is_prep_event e = false) l' /\
    (forall before, first_tool_start l' = Some before ->
       forall p, p <> VERSION_FILE_NAME -> before !! p = cwd s !! p).
Proof.
  assert (Hres : exists r m' l',
    (if negb (String.eqb version "") then build_version_file version else ret tt) s
      = (r, State m' (log s ++ l')) /\
    (forall p, p <> VERSION_FILE_NAME -> m' !! p = cwd s !! p) /\
    Forall (fun e => is_prep_event e = false /\ is_tool_event e = false) l').
  { destruct (negb (String.eqb version "")).
    - apply build_version_file_frame.
    - exists (Ret tt), (cwd s), []. rewrite app_nil_r. destruct s.
      split; [reflexivity|]. split; [reflexivity|constructor]. }
  destruct Hres as (r1 & m1 & l1 & Hrun & Hframe & Hev).
  assert (Hprep : Forall (fun e => is_prep_event e = false) l1).
  { eapply Forall_impl; [exact Hev|]. intros e [H _]. exact H. }
  assert (Htool : Forall (fun e => is_tool_event e = false) l1).
  { eapply Forall_impl; [exact Hev|]. intros e [_ H]. exact H. }
  unfold build_after_preparation, bind. rewrite Hrun.
  destruct r1 as [[]|e].
  2:{ exists (Raise e), m1, l1. split; [reflexivity|]. split; [exact Hprep|].
      intros before Hb. rewrite first_tool_start_none in Hb by exact Htool.
      discriminate. }
  rewrite check_call_spec. cbn [cwd log].
  destruct (tool w WHEEL_ARGS m1) as [[m2 c2]|].
  2:{ exists (Raise FileNotFoundError), m1, l1. split; [reflexivity|].
      split; [exact Hprep|].
      intros before Hb. rewrite first_tool_start_none in Hb by exact Htool.
      discriminate. }
  assert (Hfirst : forall rest before,
            first_tool_start (l1 ++ CheckCall WHEEL_ARGS m1 c2 :: rest) = Some before ->
            forall p, p <> VERSION_FILE_NAME -> before !! p = cwd s !! p).
  { intros rest before Hb p Hp.
    rewrite first_tool_start_app in Hb by exact Htool.
    cbn in Hb. injection Hb as <-. apply Hframe, Hp. }
  destruct (c2 =? 0)%Z.
  2:{ exists (Raise (CalledProcessError c2)), m2, (l1 ++ [CheckCall WHEEL_ARGS m1 c2]).
      rewrite app_assoc. split; [reflexivity|]. split.
      - apply Forall_app. split; [exact Hprep|repeat constructor].
      - apply Hfirst. }
  rewrite check_call_spec. cbn [cwd log].
  destruct (tool w SDIST_ARGS m2) as [[m3 c3]|].
  2:{ exists (Raise FileNotFoundError), m2, (l1 ++ [CheckCall WHEEL_ARGS m1 c2]).
      rewrite app_assoc. split; [reflexivity|]. split.
      - apply Forall_app. split; [exact Hprep|repeat constructor].
      - apply Hfirst. }
  exists (if (c3 =? 0)%Z then Ret tt else Raise (CalledProcessError c3)), m3,
    (l1 ++ [CheckCall WHEEL_ARGS m1 c2; CheckCall SDIST_ARGS m2 c3]).
  split.
  - rewrite <- !app_assoc. reflexivity.
  - split.
    + apply Forall_app. split; [exact Hprep|repeat constructor].
    + apply Hfirst.
Qed.

(** When nothing is in the way, [build] is its lines 63 to 68. *)
Lemma build_unoccupied force version s :
  (forall name n children,
     cwd s !! DIST_PATH <> Some (Dir ((name, n) :: children))) ->
  build w force version s = build_after_preparation w version s.
Proof.
  intros Hfree. unfold build, build_after_preparation.
  unfold bind at 1. rewrite dist_has_entries_spec.
  destruct (cwd s !! DIST_PATH) as [[doc|[|[name n] children]]|] eqn:E;
    try reflexivity.
  exfalso. exact (Hfree name n children eq_refl).
Qed.

(** The three steps that clear the output directory. *)
Lemma clear_dist_spec s name n children :
  cwd s !! DIST_PATH = Some (Dir ((name, n) :: children)) ->
  clear_dist s =
    match cwd s !! DIST_PATH_DELETE with
    | None | Some (Dir []) =>
        (Ret tt,
         State (<[DIST_PATH := Dir []]> (delete DIST_PATH_DELETE (cwd s)))
               (log s ++ [Rename DIST_PATH DIST_PATH_DELETE;
                          Rmtree DIST_PATH_DELETE; Mkdir DIST_PATH]))
    | Some (Dir (_ :: _)) => (Raise DirectoryNotEmpty, s)
    | Some (File _) => (Raise NotADirectoryError, s)
    end.
Proof.
  intros Hdist. destruct s as [m l]. cbn [cwd log] in *.
  assert (Hmap : forall x : node,
    <[DIST_PATH := Dir []]>
      (delete DIST_PATH_DELETE (<[DIST_PATH_DELETE := x]> (delete DIST_PATH m)))
    = <[DIST_PATH := Dir []]> (delete DIST_PATH_DELETE m)).
  { intros x. rewrite delete_insert_eq, delete_delete, insert_delete_eq.
    reflexivity. }
  unfold clear_dist, rename, rmtree, mkdir, bind, get_cwd, put_cwd, emit, ret, raise.
  cbn [cwd log]. rewrite Hdist.
  rewrite bool_decide_eq_false_2 by discriminate.
  destruct (m !! DIST_PATH_DELETE) as [[doc|[|[name' n'] children']]|] eqn:E;
    cbn [cwd log]; try reflexivity.
  - rewrite lookup_insert_eq. cbn [cwd log].
    rewrite lookup_delete_ne by discriminate.
    rewrite lookup_insert_ne by discriminate.
    rewrite lookup_delete_eq. cbn [cwd log].
    rewrite Hmap, <- !app_assoc. reflexivity.
  - rewrite lookup_insert_eq. cbn [cwd log].
    rewrite lookup_delete_ne by discriminate.
    rewrite lookup_insert_ne by discriminate.
    rewrite lookup_delete_eq. cbn [cwd log].
    rewrite Hmap, <- !app_assoc. reflexivity.
Qed.

(** With something in the way, [build] clears the directory when forced or
    when the operator agrees, and exits with status 1 otherwise. *)
Lemma build_occupied force version s name n children :
  cwd s !! DIST_PATH = Some (Dir ((name, n) :: children)) ->
  build w force version s =
    if force then
      (clear_dist >> build_after_preparation w version) s
    else if operator w confirm_prompt then
      (clear_dist >> build_after_preparation w version)
        (State (cwd s) (log s ++ [Confirm confirm_prompt true]))
    else
      (Raise (SystemExit 1),
       State (cwd s) (log s ++ [Confirm confirm_prompt false; Stdout "Aborting"])).
Proof.
  intros Hdist. unfold build.
  unfold bind at 1. rewrite dist_has_entries_spec, Hdist.
  destruct force.
  - unfold clear_dist, build_after_preparation, bind, ret. reflexivity.
  - unfold click_confirm.
    change (DIST_PATH +:+ " is not empty - delete contents?") with confirm_prompt.
    destruct (operator w confirm_prompt) eqn:Hans.
    + unfold clear_dist, build_after_preparation, bind, ret, emit. cbn [cwd log].
      reflexivity.
    + unfold print, sys_exit, bind, ret, emit, raise. cbn [cwd log].
      rewrite <- app_assoc. reflexivity.
Qed.

(** C3.  When the output directory has entries, the force flag is off and
    the operator declines, [build] changes nothing in the working directory,
    starts no external tool (it logs the question and the word [Aborting]
    only) and exits with status 1, which is not zero. *)
Theorem declined_build_aborts (m : fs) version :
  occupied_dir m DIST_PATH ->
  operator w confirm_prompt = false ->
  run (build w false version) m
    = (Raise (SystemExit 1),
       State m [Confirm confirm_prompt false; Stdout "Aborting"]) /\
  exit_status (run (build w false version) m).1 <> 0%Z.
Proof.
  intros (name & n & children & Hdist) Hno.
  assert (Hrun : run (build w false version) m
    = (Raise (SystemExit 1),
       State m [Confirm confirm_prompt false; Stdout "Aborting"])).
  { unfold run. rewrite (build_occupied _ _ _ name n children) by exact Hdist.
    rewrite Hno. reflexivity. }
  split; [exact Hrun|]. rewrite Hrun. discriminate.
Qed.

(** C10.  When the output directory is missing or has no entries, [build]
    is exactly its lines 63 to 68: it logs no question, rename, deletion or
    creation of a directory, and its first external tool finds the path of
    the output directory as it was at the start (not created if it was
    missing). *)
Theorem unoccupied_build_skips_preparation (m : fs) force version :
  absent_or_empty m DIST_PATH ->
  run (build w force version) m = run (build_after_preparation w version) m /\
  Forall (fun e => is_prep_event e = false) (log (run (build w force version) m).2) /\
  (forall before,
     first_tool_start (log (run (build w force version) m).2) = Some before ->
     before !! DIST_PATH = m !! DIST_PATH).
Proof.
  intros Hfree.
  assert (Hrun : run (build w force version) m
                 = run (build_after_preparation w version) m).
  { unfold run. apply build_unoccupied. cbn [cwd].
    intros name n children E. destruct Hfree as [H|H]; rewrite H in E; discriminate. }
  split; [exact Hrun|]. rewrite Hrun. unfold run.
  destruct (build_after_preparation_frame version (State m []))
    as (r & m' & l' & Hr & Hprep & Hfirst).
  rewrite Hr. cbn [snd log app] in *. split; [exact Hprep|].
  intros before Hb. apply (Hfirst before Hb). discriminate.
Qed.





End Build.



Lemma declined_build_aborts_witness :
  Release.run (Release.build Sample.published false "auto") Sample.after_build
  = (Os.Raise (Os.SystemExit 1),
     Os.State Sample.after_build
       [Os.Confirm "dist is not empty - delete contents?" false; Os.Stdout "Aborting"]).
Proof.
  apply (declined_build_aborts Sample.published Sample.after_build "auto").
  - eexists _, _, _. vm_compute. reflexivity.
  - reflexivity.
Defined.

Lemma unoccupied_build_skips_preparation_witness :
  Release.run (Release.build Sample.published false "auto") Sample.fresh
  = Release.run (Obs.build_after_preparation Sample.published "auto") Sample.fresh.
Proof.
  apply (unoccupied_build_skips_preparation Sample.published Sample.fresh false "auto").
  left. vm_compute. reflexivity.
Defined.


(** ** The upload command *)

Section Upload.
Import Os Release Obs.
Variable w : world.

Lemma upload_step_spec release s :
  upload_step w release s =
    match tool w (twine_args release) (cwd s) with
    | None => (Raise FileNotFoundError, s)
    | Some (m', code) =>
        (Ret tt,
         State m' (log s ++ [Popen (twine_args release) (cwd s); Wait code]))
    end.
Proof.
  unfold upload_step, popen, wait, bind, get_cwd, put_cwd, emit, ret, raise.
  cbn [cwd log].
  destruct (tool w (twine_args release) (cwd s)) as [[m' code]|]; [|reflexivity].
  cbn [cwd log proc_after returncode]. rewrite <- app_assoc. reflexivity.
Qed.

(** [upload] is its preconditions followed by the upload step. *)
Lemma upload_unfold release rebuild version s :
  upload w release rebuild version s =
    if rebuild then (build w true version >> upload_step w release) s
    else match cwd s !! DIST_PATH with
         | Some (Dir (_ :: _)) => upload_step w release s
         | _ => (Ret tt, State (cwd s) (log s ++ [Stdout NO_DIST_FILES]))
         end.
Proof.
  unfold upload. destruct rebuild; cbn [negb].
  - reflexivity.
  - unfold bind at 1. rewrite dist_has_entries_spec.
    destruct (cwd s !! DIST_PATH) as [[doc|[|[name n] children]]|]; reflexivity.
Qed.

(** C4.  With rebuild off and the output directory missing or without
    entries, [upload] prints the guidance and returns normally (exit status
    0): the working directory is untouched and neither [build] nor any
    external program has run, as the log holds the printed line only. *)
Theorem upload_without_artifacts (m : fs) release version :
  absent_or_empty m DIST_PATH ->
  run (upload w release false version) m
    = (Ret tt, State m [Stdout NO_DIST_FILES]) /\
  exit_status (run (upload w release false version) m).1 = 0%Z.
Proof.
  intros Hfree.
  assert (Hrun : run (upload w release false version) m
                 = (Ret tt, State m [Stdout NO_DIST_FILES])).
  { unfold run. rewrite upload_unfold. cbn [cwd log app].
    destruct Hfree as [H|H]; rewrite H; reflexivity. }
  split; [exact Hrun|]. rewrite Hrun. reflexivity.
Qed.

(** C5.  Whenever [upload] gets to the upload step (with rebuild on: the
    build returned; with rebuild off: the output directory has entries) and
    the twine subprocess runs and terminates with any status [code],
    [upload] waits for it and then returns normally, with exit status 0: the
    status appears in the log of the wait and nowhere in the outcome. *)
Theorem upload_ignores_exit_status (m : fs) release (rebuild : bool) version m' code :
  let s1 := if rebuild then (run (build w true version) m).2 else State m [] in
  (if rebuild then (run (build w true version) m).1 = Ret tt
   else occupied_dir m DIST_PATH) ->
  tool w (twine_args release) (cwd s1) = Some (m', code) ->
  run (upload w release rebuild version) m
    = (Ret tt,
       State m' (log s1 ++ [Popen (twine_args release) (cwd s1); Wait code])) /\
  exit_status (run (upload w release rebuild version) m).1 = 0%Z.
Proof.
  intros s1 Hreach Htool.
  assert (Hrun : run (upload w release rebuild version) m
    = (Ret tt,
       State m' (log s1 ++ [Popen (twine_args release) (cwd s1); Wait code]))).
  { unfold run. rewrite upload_unfold. destruct rebuild.
    - unfold bind. unfold run in Hreach, s1.
      destruct (build w true version (State m [])) as [r s2].
      cbn [fst snd] in *. subst r s1.
      rewrite upload_step_spec, Htool. reflexivity.
    - destruct Hreach as (name & n & children & Hdist). cbn [cwd].
      rewrite Hdist. subst s1. rewrite upload_step_spec, Htool. reflexivity. }
  split; [exact Hrun|]. rewrite Hrun. reflexivity.
Qed.

End Upload.

Lemma upload_without_artifacts_witness :
  Release.run (Release.upload Sample.published true false "auto") Sample.fresh
  = (Os.Ret tt,
     Os.State Sample.fresh
       [Os.Stdout "No distribution files found. Please run 'build' command first"]).
Proof.
  apply (upload_without_artifacts Sample.published Sample.fresh true "auto").
  left. vm_compute. reflexivity.
Defined.

Lemma upload_ignores_exit_status_witness :
  (Release.run (Release.upload Sample.published true false "auto") Sample.after_build).1
  = Os.Ret tt /\
  Os.log (Release.run (Release.upload Sample.published true false "auto") Sample.after_build).2
  = [Os.Popen ["twine"; "upload"; "dist/*"] Sample.after_build; Os.Wait 1].
Proof.
  destruct (upload_ignores_exit_status Sample.published Sample.after_build
              true false "auto" Sample.after_build 1%Z) as [Hrun _].
  - eexists _, _, _. vm_compute. reflexivity.
  - reflexivity.
  - rewrite Hrun. split; reflexivity.
Defined.

(** ** The list command *)

Section Listing.
Import Os Release Obs.
Variable w : world.

(** C8.  When the package index answers with a 4xx or 5xx status,
    [list_releases] prints the package-not-found line and returns normally
    (exit status 0); the body of the response is not parsed (no [ParseBody]
    in the log) and has no influence on the outcome. *)
Theorem unsuccessful_response_prints_not_found (m : fs) (r : response) :
  index w (PYPI_URL PYPI_PACKAGE_NAME) = Some r ->
  (400 <= status_code r < 600)%Z ->
  run (list_releases w) m
    = (Ret tt, State m [HttpGet (PYPI_URL PYPI_PACKAGE_NAME); Stdout NOT_FOUND]) /\
  exit_status (run (list_releases w) m).1 = 0%Z.
Proof.
  intros Hget Hstatus.
  assert (Hok : response_ok r = false).
  { unfold response_ok. apply negb_false_iff, andb_true_iff.
    split; [apply Z.leb_le | apply Z.ltb_lt]; lia. }
  assert (Hrun : run (list_releases w) m
    = (Ret tt, State m [HttpGet (PYPI_URL PYPI_PACKAGE_NAME); Stdout NOT_FOUND])).
  { unfold run, list_releases, requests_get, print, bind, emit, ret.
    rewrite Hget. cbn [cwd log app]. rewrite Hok. reflexivity. }
  split; [exact Hrun|]. rewrite Hrun. reflexivity.
Qed.

(** The inner loop on well-formed descriptors: the labels are appended in
    list order and the upload time is overwritten by each descriptor. *)
Lemma scan_artifacts_well_formed artifacts descs :
  mapM artifact_fields artifacts = Some descs ->
  forall release_formats published_on_date s,
    fold_each artifacts (release_formats, published_on_date) scan_artifact s
    = (Ret (release_formats ++ (JStr <$> (fst <$> descs)),
            from_option (fun d => JStr d.2) published_on_date (last descs)), s).
Proof.
  intros H. apply mapM_Some in H.
  induction H as [|fmt [label time] artifacts descs Hfmt _ IH];
    intros release_formats published_on_date s.
  - cbn. rewrite app_nil_r. reflexivity.
  - cbn [fold_each]. unfold bind at 1.
    destruct fmt as [| | | | |fields]; try discriminate.
    cbn in Hfmt.
    destruct (assoc "packagetype" fields) as [[| | |label'| |]|] eqn:Hl;
      try discriminate.
    destruct (assoc "upload_time" fields) as [[| | |time'| |]|] eqn:Ht;
      try discriminate.
    injection Hfmt as -> ->.
    unfold scan_artifact at 1, dict_get, bind, ret. rewrite Hl, Ht. cbn [from_option id].
    rewrite IH. cbn [fmap list_fmap fst]. rewrite <- app_assoc. cbn [app].
    rewrite last_cons. destruct (last descs) as [[l t]|]; reflexivity.
Qed.

Lemma str_join_labels sep (labels : list string) s :
  str_join sep (JStr <$> labels) s = (Ret (Py.join sep labels), s).
Proof.
  unfold str_join.
  replace (mapM (fun v => match v with JStr s0 => Some s0 | _ => None end)
             (JStr <$> labels)) with (Some labels); [reflexivity|].
  symmetry. apply mapM_Some. induction labels; constructor; auto.
Qed.

(** One round of the outer loop on a release whose artifact list is not
    empty and holds well-formed descriptors: it prints the line with the
    upload time of the last descriptor and the labels in list order. *)
Lemma list_release_well_formed item line s :
  item_line item = Some line ->
  list_release item s = (Ret tt, State (cwd s) (log s ++ [Stdout line])).
Proof.
  destruct item as [version release]. intros Hline.
  destruct release as [| | | |artifacts|]; try discriminate.
  cbn in Hline.
  destruct (mapM artifact_fields artifacts) as [descs|] eqn:Hdescs;
    [|discriminate].
  unfold release_line in Hline.
  destruct (last descs) as [[l time]|] eqn:Hlast; [|discriminate].
  injection Hline as <-.
  unfold list_release, iterate. unfold bind at 1. unfold ret at 1.
  unfold bind at 1.
  rewrite (scan_artifacts_well_formed artifacts descs Hdescs).
  rewrite Hlast. cbn [from_option snd app].
  unfold bind at 1. rewrite str_join_labels.
  unfold format_line, format_right, print, bind, ret, emit. reflexivity.
Qed.

(** The whole listing on a successful response in which every release has
    a line: the lines are printed in the order of the mapping. *)
Lemma for_each_list_release items lines :
  mapM item_line items = Some lines ->
  forall s,
    for_each items list_release s
    = (Ret tt, State (cwd s) (log s ++ (Stdout <$> lines))).
Proof.
  intros H. apply mapM_Some in H.
  induction H as [|item line items lines Hline _ IH]; intros s.
  - cbn. rewrite app_nil_r. destruct s. reflexivity.
  - cbn [for_each]. unfold bind.
    rewrite (list_release_well_formed item line s Hline).
    rewrite IH. cbn [cwd log fmap list_fmap]. rewrite <- app_assoc. reflexivity.
Qed.

Lemma list_releases_well_formed (m : fs) (r : response) fields item items lines :
  index w (PYPI_URL PYPI_PACKAGE_NAME) = Some r ->
  response_ok r = true ->
  body r = Some (JObj fields) ->
  assoc "releases" fields = Some (JObj (item :: items)) ->
  mapM item_line (item :: items) = Some lines ->
  run (list_releases w) m
  = (Ret tt,
     State m (HttpGet (PYPI_URL PYPI_PACKAGE_NAME) :: ParseBody :: (Stdout <$> lines))).
Proof.
  intros Hget Hok Hbody Hrel Hlines.
  unfold run, list_releases, requests_get, response_json.
  rewrite Hget. unfold bind at 1. unfold bind at 1. unfold emit at 1.
  unfold ret at 1. cbn [cwd log app]. rewrite Hok.
  unfold bind at 1. unfold bind at 1. unfold emit at 1. cbn [cwd log app].
  rewrite Hbody. unfold ret at 1. unfold bind at 1.
  unfold dict_get at 1. rewrite Hrel. unfold ret at 1. cbn [from_option id truthy].
  rewrite bool_decide_eq_false_2 by discriminate. cbn [negb].
  unfold bind at 1. unfold dict_items, ret at 1.
  rewrite (for_each_list_release _ lines Hlines). reflexivity.
Qed.

End Listing.

Lemma unsuccessful_response_prints_not_found_witness :
  Os.log (Release.run (Release.list_releases Sample.unpublished) Sample.fresh).2
  = [Os.HttpGet "https://pypi.org/pypi/pyo365/json"; Os.Stdout Release.NOT_FOUND].
Proof.
  destruct (unsuccessful_response_prints_not_found Sample.unpublished Sample.fresh
              (Os.Response 404 None)) as [Hrun _].
  - reflexivity.
  - cbn. lia.
  - rewrite Hrun. reflexivity.
Defined.

(** The response of the specification: one line for 1.0.0, with the upload
    time of the second artifact and the labels in list order. *)
Example list_releases_example (m : Os.fs) :
  Release.run (Release.list_releases Sample.published) m
  = (Os.Ret tt,
     Os.State m
       [Os.HttpGet "https://pypi.org/pypi/pyo365/json"; Os.ParseBody;
        Os.Stdout "1.0.0     2020-01-01T00:05:00      sdist | bdist_wheel"]).
Proof. reflexivity. Qed.

(** C6, at a response on which the code does not print the line.  The
    releases mapping of this response holds 1.0.0 with the two artifacts of
    the specification, after a release 0.9.0 that has no artifacts.  For 0.9.0 the upload time is still [None]
    when the line is formatted, ['{:>15}'.format(None)] raises [TypeError],
    and the command ends there: nothing is printed, not for 1.0.0 either. *)
Theorem list_releases_stops_at_empty_release (m : Os.fs) :
  Release.run (Release.list_releases Sample.with_empty_release) m
  = (Os.Raise Os.TypeError,
     Os.State m [Os.HttpGet "https://pypi.org/pypi/pyo365/json"; Os.ParseBody]).
Proof. reflexivity. Qed.

(** * Further properties of the script *)

(** ** The version resolver, beyond the well-formed case *)

Section MoreVersionFile.
Import Os Release Obs Props.














(** X5.  The resolver writes only when it succeeds: whenever it raises,
    with the sentinel or with an explicit version, the working directory is
    as before, and the log has grown by the read of the version file at
    most. *)
Theorem resolver_failure_leaves_directory version s e s' :
  build_version_file version s = (Raise e, s') ->
  cwd s' = cwd s /\
  (log s' = log s \/ log s' = log s ++ [ReadFile VERSION_FILE_NAME]).
Proof.
  destruct s as [m l].
  unfold build_version_file, json_load, json_dump, dict_get, str_split,
    int_all, bind, get_cwd, put_cwd, emit, ret, raise.
  cbn [cwd log].
  repeat case_match; simplify_eq; cbn [cwd log];
    intros H; simplify_eq; cbn [cwd log]; auto.
Qed.

Lemma resolver_failure_leaves_directory_witness :
  cwd (run (build_version_file "auto") Cases.corrupt).2 = Cases.corrupt.
Proof.
  apply (resolver_failure_leaves_directory "auto" (State Cases.corrupt [])
           JSONDecodeError (run (build_version_file "auto") Cases.corrupt).2).
  reflexivity.
Defined.

(** X6.  Without a version file the sentinel cannot be resolved: the
    resolver raises [FileNotFoundError] and creates nothing. *)
Theorem auto_increment_needs_version_file (m : fs) :
  m !! VERSION_FILE_NAME = None ->
  run (build_version_file "auto") m = (Raise FileNotFoundError, State m []).
Proof.
  intros H. unfold run, build_version_file, json_load, bind, get_cwd.
  cbn. rewrite H. reflexivity.
Qed.

Lemma auto_increment_needs_version_file_witness :
  run (build_version_file "auto") Cases.empty_checkout
  = (Raise FileNotFoundError, State Cases.empty_checkout []).
Proof.
  apply (auto_increment_needs_version_file Cases.empty_checkout). reflexivity.
Defined.

(** X7.  When the version file is JSON but holds no string under
    ['version'] (the key is missing, its value is a number or [null], or
    the document is not an object), the sentinel raises [AttributeError]
    after reading the file, and nothing is written. *)
Theorem auto_increment_needs_version_string (m : fs) doc :
  m !! VERSION_FILE_NAME = Some (File (Some doc)) ->
  stored_version m = None ->
  run (build_version_file "auto") m
  = (Raise AttributeError, State m [ReadFile VERSION_FILE_NAME]).
Proof.
  intros Hfile Hnone. unfold stored_version in Hnone. rewrite Hfile in Hnone.
  unfold run, build_version_file, json_load, dict_get, str_split, bind,
    get_cwd, emit, ret, raise.
  cbn [cwd log String.eqb Ascii.eqb Bool.eqb]. rewrite Hfile.
  cbn [cwd log app].
  destruct doc as [| | | | |fields]; try reflexivity.
  cbn [from_option id].
  destruct (assoc "version" fields) as [[| | |v| |]|]; try reflexivity.
  discriminate.
Qed.

Lemma auto_increment_needs_version_string_witness :
  run (build_version_file "auto") Cases.no_version_key
  = (Raise AttributeError, State Cases.no_version_key [ReadFile "version.json"]).
Proof.
  apply (auto_increment_needs_version_string Cases.no_version_key
           (JObj [("name", JStr "pyo365")])); reflexivity.
Defined.

(** X8.  An explicit version does not depend on what is stored: the
    resolver never reads the version file, creates it when it is missing,
    and replaces whatever it held (other keys included) by the one key
    ['version']. *)
Theorem explicit_version_replaces_file (m : fs) version :
  version <> "auto" ->
  (forall children, m !! VERSION_FILE_NAME <> Some (Dir children)) ->
  run (build_version_file version) m
  = (Ret tt,
     State (<[VERSION_FILE_NAME := File (Some (version_doc version))]> m)
           [WriteFile VERSION_FILE_NAME (version_doc version)]).
Proof.
  intros Hne Hfile. unfold run.
  rewrite build_version_file_explicit; auto.
Qed.

Lemma explicit_version_replaces_file_witness :
  stored_version (cwd (run (build_version_file "3.0.0") Cases.corrupt).2)
  = Some "3.0.0".
Proof.
  rewrite (explicit_version_replaces_file Cases.corrupt "3.0.0").
  - reflexivity.
  - discriminate.
  - intros children. vm_compute. discriminate.
Defined.

End MoreVersionFile.

(** ** Commands do not look at the log *)

Section LogBlind.
Import Os Release Obs Props.

Lemma log_blind_ret {A} (a : A) : log_blind (ret a).
Proof. intros m l. cbn. rewrite app_nil_r. reflexivity. Qed.

Lemma log_blind_raise {A} e : log_blind (@raise A e).
Proof. intros m l. cbn. rewrite app_nil_r. reflexivity. Qed.

Lemma log_blind_emit e : log_blind (emit e).
Proof. intros m l. reflexivity. Qed.

Lemma log_blind_put_cwd m' : log_blind (put_cwd m').
Proof. intros m l. cbn. rewrite app_nil_r. reflexivity. Qed.

Lemma log_blind_bind {A B} (c : M A) (k : A -> M B) :
  log_blind c -> (forall a, log_blind (k a)) -> log_blind (bind c k).
Proof.
  intros Hc Hk m l. unfold bind. rewrite (Hc m l).
  destruct (c (State m [])) as [[a|e] [m1 l1]]; cbn [fst snd cwd log].
  - rewrite (Hk a m1 (l ++ l1)), (Hk a m1 l1).
    destruct (k a (State m1 [])) as [r2 [m2 l2]]. cbn [fst snd cwd log].
    rewrite app_assoc. reflexivity.
  - reflexivity.
Qed.

Lemma log_blind_get_cwd {B} (k : fs -> M B) :
  (forall m, log_blind (k m)) -> log_blind (bind get_cwd k).
Proof. intros Hk m l. unfold bind, get_cwd. cbn [cwd]. apply Hk. Qed.

Ltac blind :=
  repeat first
    [ apply log_blind_ret | apply log_blind_raise | apply log_blind_emit
    | apply log_blind_put_cwd | apply log_blind_get_cwd
    | apply log_blind_bind | intro | case_match ].

Lemma log_blind_rename src dst : log_blind (rename src dst).
Proof. unfold rename. blind. Qed.

Lemma log_blind_rmtree p : log_blind (rmtree p).
Proof. unfold rmtree. blind. Qed.

Lemma log_blind_mkdir p : log_blind (mkdir p).
Proof. unfold mkdir. blind. Qed.

Lemma log_blind_clear_dist : log_blind clear_dist.
Proof.
  unfold clear_dist.
  repeat first [ apply log_blind_rename | apply log_blind_rmtree
               | apply log_blind_mkdir | apply log_blind_bind | intro ].
Qed.

Lemma log_blind_build_version_file version :
  log_blind (build_version_file version).
Proof.
  unfold build_version_file, json_load, json_dump, dict_get, str_split, int_all.
  blind.
Qed.

Lemma log_blind_check_call w args : log_blind (check_call w args).
Proof. unfold check_call. blind. Qed.

Lemma log_blind_build_after_preparation w version :
  log_blind (build_after_preparation w version).
Proof.
  unfold build_after_preparation.
  repeat first [ apply log_blind_build_version_file | apply log_blind_check_call
               | apply log_blind_ret | apply log_blind_bind | intro | case_match ].
Qed.

End LogBlind.

(** ** The build command, beyond the claims *)

Section MoreBuild.
Import Os Release Obs Props.
Variable w : world.

(** Lines 66 to 68: the two tools, one after the other. *)
Lemma build_tools_spec s :
  (check_call w WHEEL_ARGS >> check_call w SDIST_ARGS) s =
    match tool w WHEEL_ARGS (cwd s) with
    | None => (Raise FileNotFoundError, s)
    | Some (m2, c2) =>
        if (c2 =? 0)%Z then
          match tool w SDIST_ARGS m2 with
          | None =>
              (Raise FileNotFoundError,
               State m2 (log s ++ [CheckCall WHEEL_ARGS (cwd s) c2]))
          | Some (m3, c3) =>
              (if (c3 =? 0)%Z then Ret tt else Raise (CalledProcessError c3),
               State m3 (log s ++ [CheckCall WHEEL_ARGS (cwd s) c2;
                                   CheckCall SDIST_ARGS m2 c3]))
          end
        else
          (Raise (CalledProcessError c2),
           State m2 (log s ++ [CheckCall WHEEL_ARGS (cwd s) c2]))
    end.
Proof.
  unfold bind. rewrite check_call_spec.
  destruct (tool w WHEEL_ARGS (cwd s)) as [[m2 c2]|]; [|reflexivity].
  destruct (c2 =? 0)%Z; [|reflexivity].
  rewrite check_call_spec. cbn [cwd log].
  destruct (tool w SDIST_ARGS m2) as [[m3 c3]|]; [|reflexivity].
  rewrite <- app_assoc. reflexivity.
Qed.

(** The resolver with its guard (lines 63 and 64): what it can raise, what
    it logs and what it leaves alone. *)
Lemma resolve_shape version s :
  exists r m1 l1,
    (if negb (String.eqb version "") then build_version_file version else ret tt) s
      = (r, State m1 (log s ++ l1)) /\
    Forall (fun e => is_file_event e = true) l1 /\
    (forall p, p <> VERSION_FILE_NAME -> m1 !! p = cwd s !! p) /\
    (version = "" -> r = Ret tt /\ m1 = cwd s /\ l1 = []) /\
    (forall e, r = Raise e ->
       (forall n, e <> SystemExit n) /\ (forall c, e <> CalledProcessError c)).
Proof.
  destruct s as [m l]. destruct (String.eqb version "") eqn:Hv; cbn [negb].
  - exists (Ret tt), m, []. rewrite app_nil_r.
    repeat split; try reflexivity; try constructor; discriminate.
  - assert (Hne : version <> "") by (apply String.eqb_neq; exact Hv).
    unfold build_version_file, json_load, json_dump, dict_get, str_split,
      int_all, bind, get_cwd, put_cwd, emit, ret, raise.
    cbn [cwd log].
    repeat case_match; simplify_eq; cbn [cwd log];
      repeat (rewrite <- app_assoc; cbn [app]);
      first
        [ (eexists _, _, []; rewrite app_nil_r; split; [reflexivity|])
        | (eexists _, _, [_]; split; [reflexivity|])
        | (eexists _, _, [_; _]; split; [reflexivity|]) ];
      (split; [repeat constructor|]);
      (split; [intros p Hp; (reflexivity || by rewrite lookup_insert_ne)|]);
      (split; [intros ->; congruence|]);
      intros e0 He0; simplify_eq; split; discriminate.
Qed.

(** The preparation of [build] (lines 53 to 61): it either stops the
    command, or hands over to lines 63 to 68 a directory that differs from
    the first one in [dist] and [dist_delete] at most. *)
Lemma build_preparation_shape force version s :
  exists lp,
    Forall (fun e => is_prep_event e = true \/ e = Stdout "Aborting") lp /\
    ((exists e, build w force version s = (Raise e, State (cwd s) (log s ++ lp)) /\
                (e = SystemExit 1 /\ force = false \/
                 e = DirectoryNotEmpty \/ e = NotADirectoryError)) \/
     (exists m1,
        build w force version s
          = build_after_preparation w version (State m1 (log s ++ lp)) /\
        forall p, p <> DIST_PATH -> p <> DIST_PATH_DELETE -> m1 !! p = cwd s !! p)).
Proof.
  destruct s as [m l]. cbn [cwd log].
  destruct (m !! DIST_PATH) as [[doc|[|[name n] children]]|] eqn:Hdist.
  1, 2, 4: exists []; split; [constructor|]; right; exists m; rewrite app_nil_r;
    split; [|reflexivity];
    apply build_unoccupied; cbn [cwd]; intros ? ? ? E; rewrite Hdist in E;
    discriminate.
  assert (Hclear : forall lc,
    Forall (fun e => is_prep_event e = true \/ e = Stdout "Aborting") lc ->
    exists lp,
      Forall (fun e => is_prep_event e = true \/ e = Stdout "Aborting") lp /\
      ((exists e, (clear_dist >> build_after_preparation w version) (State m (l ++ lc))
                  = (Raise e, State m (l ++ lp)) /\
                  (e = SystemExit 1 /\ force = false \/
                   e = DirectoryNotEmpty \/ e = NotADirectoryError)) \/
       (exists m1, (clear_dist >> build_after_preparation w version) (State m (l ++ lc))
                   = build_after_preparation w version (State m1 (l ++ lp)) /\
                   forall p, p <> DIST_PATH -> p <> DIST_PATH_DELETE ->
                             m1 !! p = m !! p))).
  { intros lc Hlc. unfold bind.
    rewrite (clear_dist_spec _ name n children) by exact Hdist. cbn [cwd log].
    assert (Hframe : forall p, p <> DIST_PATH -> p <> DIST_PATH_DELETE ->
              (<[DIST_PATH := Dir []]> (delete DIST_PATH_DELETE m)) !! p = m !! p).
    { intros p H1 H2. rewrite lookup_insert_ne by congruence.
      apply lookup_delete_ne. congruence. }
    destruct (m !! DIST_PATH_DELETE) as [[doc|[|[name' n'] children']]|] eqn:E.
    - exists lc. split; [exact Hlc|]. left. eexists. split; [reflexivity|]. auto.
    - eexists (lc ++ _). split;
        [|right; eexists; split; [rewrite app_assoc; reflexivity|exact Hframe]].
      apply Forall_app. split; [exact Hlc|].
      repeat (apply Forall_cons; split; [left; reflexivity|]). constructor.
    - exists lc. split; [exact Hlc|]. left. eexists. split; [reflexivity|]. auto.
    - eexists (lc ++ _). split;
        [|right; eexists; split; [rewrite app_assoc; reflexivity|exact Hframe]].
      apply Forall_app. split; [exact Hlc|].
      repeat (apply Forall_cons; split; [left; reflexivity|]). constructor. }
  rewrite (build_occupied _ _ _ _ name n children) by exact Hdist. cbn [cwd log].
  destruct force.
  - specialize (Hclear [] ltac:(constructor)). rewrite app_nil_r in Hclear.
    exact Hclear.
  - destruct (operator w confirm_prompt).
    + apply Hclear. apply Forall_cons; split; [left; reflexivity|constructor].
    + eexists. split; [|left; eexists; split; [reflexivity|auto]].
      apply Forall_cons; split; [left; reflexivity|].
      apply Forall_cons; split; [right; reflexivity|constructor].
Qed.

Lemma prep_not_tool lp :
  Forall (fun e => is_prep_event e = true \/ e = Stdout "Aborting") lp ->
  Forall (fun e => is_tool_event e = false) lp.
Proof.
  intros Hlp. eapply Forall_impl; [exact Hlp|].
  intros e [H| ->]; [|reflexivity].
  destruct e; try discriminate; reflexivity.
Qed.

Lemma prep_not_file lp :
  Forall (fun e => is_prep_event e = true \/ e = Stdout "Aborting") lp ->
  Forall (fun e => is_file_event e = false) lp.
Proof.
  intros Hlp. eapply Forall_impl; [exact Hlp|].
  intros e [H| ->]; [|reflexivity].
  destruct e; try discriminate; reflexivity.
Qed.

Lemma file_not_tool l1 :
  Forall (fun e => is_file_event e = true) l1 ->
  Forall (fun e => is_tool_event e = false) l1.
Proof.
  intros Hl1. eapply Forall_impl; [exact Hl1|].
  intros e H. destruct e; try discriminate; reflexivity.
Qed.

(** [build] either stops before any tool has run, or is the two tool calls
    from a state in whose log no tool occurs. *)
Lemma build_reaches_tools force version s :
  exists lq m2,
    Forall (fun e => is_tool_event e = false) lq /\
    ((exists e, build w force version s = (Raise e, State m2 (log s ++ lq)) /\
                forall c, e <> CalledProcessError c) \/
     build w force version s
       = (check_call w WHEEL_ARGS >> check_call w SDIST_ARGS)
           (State m2 (log s ++ lq))).
Proof.
  destruct (build_preparation_shape force version s)
    as (lp & Hlp & [(e & Hrun & He)|(m1 & Hrun & _)]).
  - exists lp, (cwd s). split; [apply prep_not_tool, Hlp|]. left.
    exists e. split; [exact Hrun|].
    intros c. destruct He as [[-> _]|[->| ->]]; discriminate.
  - destruct (resolve_shape version (State m1 (log s ++ lp)))
      as (r & m2 & l1 & Hres & Hl1 & _ & _ & Hexn).
    cbn [cwd log] in Hres.
    exists (lp ++ l1), m2. split.
    { apply Forall_app. split; [apply prep_not_tool, Hlp|apply file_not_tool, Hl1]. }
    assert (Hbap :
      build_after_preparation w version (State m1 (log s ++ lp))
      = match r with
        | Ret _ => (check_call w WHEEL_ARGS >> check_call w SDIST_ARGS)
                     (State m2 (log s ++ lp ++ l1))
        | Raise e => (Raise e, State m2 (log s ++ lp ++ l1))
        end).
    { unfold build_after_preparation. unfold bind at 1. rewrite Hres.
      rewrite <- app_assoc. destruct r as [[]|e]; reflexivity. }
    rewrite Hrun, Hbap.
    destruct r as [[]|e]; [right; reflexivity|].
    left. exists e. split; [reflexivity|]. apply (Hexn e eq_refl).
Qed.

(** X9.  [build] returns normally only when both tools have run and both
    have exited with status 0: the log ends with the wheel build and the
    source build, in this order and nothing before them started a tool; the
    source build is started in the directory the wheel build left, and the
    directory at the end is the one the source build left. *)
Theorem build_success_needs_both_tools (m : fs) force version :
  (run (build w force version) m).1 = Ret tt ->
  exists pre b1 b2,
    log (run (build w force version) m).2
      = pre ++ [CheckCall WHEEL_ARGS b1 0; CheckCall SDIST_ARGS b2 0] /\
    Forall (fun e => is_tool_event e = false) pre /\
    tool w WHEEL_ARGS b1 = Some (b2, 0%Z) /\
    tool w SDIST_ARGS b2 = Some (cwd (run (build w force version) m).2, 0%Z).
Proof.
  unfold run.
  destruct (build_reaches_tools force version (State m []))
    as (lq & m2 & Hlq & [(e & Hrun & _)|Hrun]); rewrite Hrun.
  - discriminate.
  - rewrite build_tools_spec. cbn [cwd log app].
    destruct (tool w WHEEL_ARGS m2) as [[m3 c2]|] eqn:Ht1; [|discriminate].
    destruct (c2 =? 0)%Z eqn:Hc2; [|discriminate].
    apply Z.eqb_eq in Hc2. subst c2.
    destruct (tool w SDIST_ARGS m3) as [[m4 c3]|] eqn:Ht2; [|discriminate].
    destruct (c3 =? 0)%Z eqn:Hc3; [|discriminate].
    apply Z.eqb_eq in Hc3. subst c3.
    intros _. exists lq, m2, m3. cbn [snd cwd log]. auto.
Qed.

(** X10.  When the wheel build exits with a status other than 0, [build]
    raises [CalledProcessError] with that status (exit status 1 of the
    script) and the source build is never started: the failed call is the
    last entry of the log and the only tool in it. *)
Theorem build_stops_at_failing_wheel (m : fs) force version b c :
  In (CheckCall WHEEL_ARGS b c) (log (run (build w force version) m).2) ->
  c <> 0%Z ->
  (run (build w force version) m).1 = Raise (CalledProcessError c) /\
  exit_status (run (build w force version) m).1 = 1%Z /\
  exists pre,
    log (run (build w force version) m).2 = pre ++ [CheckCall WHEEL_ARGS b c] /\
    Forall (fun e => is_tool_event e = false) pre.
Proof.
  unfold run.
  assert (Hnot : forall lq, Forall (fun e => is_tool_event e = false) lq ->
                 ~ In (CheckCall WHEEL_ARGS b c) lq).
  { intros lq Hlq Hin. rewrite Forall_forall in Hlq.
    apply list_elem_of_In in Hin. specialize (Hlq _ Hin). discriminate. }
  destruct (build_reaches_tools force version (State m []))
    as (lq & m2 & Hlq & [(e & Hrun & _)|Hrun]); rewrite Hrun.
  - cbn [snd log app]. intros Hin. destruct (Hnot lq Hlq Hin).
  - rewrite build_tools_spec. cbn [cwd log app].
    destruct (tool w WHEEL_ARGS m2) as [[m3 c2]|] eqn:Ht1.
    2:{ cbn [snd log]. intros Hin. destruct (Hnot lq Hlq Hin). }
    destruct (c2 =? 0)%Z eqn:Hc2.
    + apply Z.eqb_eq in Hc2. subst c2.
      destruct (tool w SDIST_ARGS m3) as [[m4 c3]|]; cbn [snd log];
        intros Hin Hc; apply in_app_or in Hin as [Hin|Hin];
        try (destruct (Hnot lq Hlq Hin)).
      * destruct Hin as [Hin|[Hin|[]]]; [|discriminate Hin].
        injection Hin as <- <-. congruence.
      * destruct Hin as [Hin|[]]. injection Hin as <- <-. congruence.
    + cbn [fst snd log]. intros Hin Hc.
      apply in_app_or in Hin as [Hin|Hin]; [destruct (Hnot lq Hlq Hin)|].
      cbn in Hin. destruct Hin as [Hin|[]]. injection Hin as <- <-.
      split; [reflexivity|]. split; [reflexivity|].
      exists lq. split; [reflexivity|exact Hlq].
Qed.

(** X11.  With an empty version string [build] leaves the version file
    alone: it neither reads nor writes it, and the first tool finds it as
    it was at the start. *)
Theorem build_without_version_keeps_file (m : fs) force :
  Forall (fun e => is_file_event e = false) (log (run (build w force "") m).2) /\
  (forall before,
     first_tool_start (log (run (build w force "") m).2) = Some before ->
     before !! VERSION_FILE_NAME = m !! VERSION_FILE_NAME).
Proof.
  unfold run.
  destruct (build_preparation_shape force "" (State m []))
    as (lp & Hlp & [(e & Hrun & He)|(m1 & Hrun & Hm1)]); rewrite Hrun;
    cbn [cwd log app snd] in *.
  - split; [apply prep_not_file, Hlp|].
    intros before Hb.
    rewrite first_tool_start_none in Hb by (apply prep_not_tool, Hlp).
    discriminate.
  - assert (Hv : m1 !! VERSION_FILE_NAME = m !! VERSION_FILE_NAME)
      by (apply Hm1; discriminate).
    change (build_after_preparation w "" (State m1 lp))
      with ((check_call w WHEEL_ARGS >> check_call w SDIST_ARGS) (State m1 lp)).
    rewrite build_tools_spec. cbn [cwd log].
    assert (Hfirst : forall rest before c,
              first_tool_start (lp ++ CheckCall WHEEL_ARGS m1 c :: rest) = Some before ->
              before !! VERSION_FILE_NAME = m !! VERSION_FILE_NAME).
    { intros rest before c Hb.
      rewrite first_tool_start_app in Hb by (apply prep_not_tool, Hlp).
      cbn in Hb. injection Hb as <-. exact Hv. }
    pose proof (prep_not_file lp Hlp) as Hfile.
    destruct (tool w WHEEL_ARGS m1) as [[m2 c2]|].
    2:{ cbn [snd log]. split; [exact Hfile|]. intros before Hb.
        rewrite first_tool_start_none in Hb by (apply prep_not_tool, Hlp).
        discriminate. }
    destruct (c2 =? 0)%Z.
    2:{ cbn [snd log]. split; [|intros before Hb; exact (Hfirst _ _ _ Hb)].
        apply Forall_app. split; [exact Hfile|repeat constructor]. }
    destruct (tool w SDIST_ARGS m2) as [[m3 c3]|]; cbn [snd log].
    + split; [|intros before Hb; exact (Hfirst _ _ _ Hb)].
      apply Forall_app. split; [exact Hfile|repeat constructor].
    + split; [|intros before Hb; exact (Hfirst _ _ _ Hb)].
      apply Forall_app. split; [exact Hfile|repeat constructor].
Qed.

(** Lines 63 to 68 ask nothing, prepare nothing and never exit the
    script on their own. *)
Lemma build_after_preparation_outcome version s :
  exists r m' l',
    build_after_preparation w version s = (r, State m' (log s ++ l')) /\
    Forall (fun e => is_prep_event e = false) l' /\
    (forall n, r <> Raise (SystemExit n)).
Proof.
  destruct (build_after_preparation_frame w version s)
    as (r & m' & l' & Hrun & Hprep & _).
  exists r, m', l'. split; [exact Hrun|]. split; [exact Hprep|].
  intros n ->. revert Hrun.
  destruct (resolve_shape version s) as (r1 & m1 & l1 & Hres & _ & _ & _ & Hexn).
  unfold build_after_preparation. unfold bind at 1. rewrite Hres.
  destruct r1 as [[]|e].
  - rewrite build_tools_spec. cbn [cwd log].
    destruct (tool w WHEEL_ARGS m1) as [[m2 c2]|]; [|discriminate].
    destruct (c2 =? 0)%Z; [|discriminate].
    destruct (tool w SDIST_ARGS m2) as [[m3 c3]|]; [|discriminate].
    destruct (c3 =? 0)%Z; discriminate.
  - intros H. injection H as -> _. destruct (Hexn _ eq_refl) as [Hno _].
    exact (Hno n eq_refl).
Qed.

Lemma forced_build_no_question (m : fs) version :
  Forall (fun e => is_confirm_event e = false)
         (log (run (build w true version) m).2) /\
  (forall n, (run (build w true version) m).1 <> Raise (SystemExit n)).
Proof.
  assert (Hconf : forall l, Forall (fun e => is_prep_event e = false) l ->
                  Forall (fun e => is_confirm_event e = false) l).
  { intros l Hl. eapply Forall_impl; [exact Hl|].
    intros e H. destruct e; try discriminate; reflexivity. }
  unfold run.
  destruct (m !! DIST_PATH) as [[doc|[|[name n] children]]|] eqn:Hdist.
  1, 2, 4: rewrite build_unoccupied
      by (cbn [cwd]; intros ? ? ? E; rewrite Hdist in E; discriminate);
    destruct (build_after_preparation_outcome version (State m []))
      as (r & m' & l' & Hrun & Hprep & Hexit);
    rewrite Hrun; cbn [fst snd log app]; split; [apply Hconf, Hprep|exact Hexit].
  rewrite (build_occupied _ _ _ _ name n children) by exact Hdist.
  unfold bind. rewrite (clear_dist_spec _ name n children) by exact Hdist.
  cbn [cwd log app].
  set (m1 := <[DIST_PATH := Dir []]> (delete DIST_PATH_DELETE m)).
  set (l1 := [Rename DIST_PATH DIST_PATH_DELETE; Rmtree DIST_PATH_DELETE;
              Mkdir DIST_PATH]).
  destruct (build_after_preparation_outcome version (State m1 l1))
    as (r & m' & l' & Hrun & Hprep & Hexit).
  cbn [log] in Hrun.
  destruct (m !! DIST_PATH_DELETE) as [[doc|[|[name' n'] children']]|];
    try (rewrite Hrun; cbn [fst snd log]; split; [|exact Hexit];
         apply Forall_app; split; [repeat constructor|apply Hconf, Hprep]);
    (cbn [fst snd log]; split; [constructor|discriminate]).
Qed.

(** X12.  With the force flag [build] never asks the operator and never
    ends by [sys.exit]: no question is logged, whatever the directory
    holds. *)
Theorem forced_build_never_asks (m : fs) version :
  Forall (fun e => is_confirm_event e = false)
         (log (run (build w true version) m).2) /\
  (forall n, (run (build w true version) m).1 <> Raise (SystemExit n)).
Proof. apply forced_build_no_question. Qed.

(** [build] starts its tools through [check_call] only. *)
Lemma build_log_no_upload (m : fs) force version :
  Forall (fun e => is_popen_event e = false)
         (log (run (build w force version) m).2).
Proof.
  assert (Hup : forall l, Forall (fun e => is_tool_event e = false) l ->
                Forall (fun e => is_popen_event e = false) l).
  { intros l Hl. eapply Forall_impl; [exact Hl|].
    intros e H. destruct e; try discriminate; reflexivity. }
  unfold run.
  destruct (build_reaches_tools force version (State m []))
    as (lq & m2 & Hlq & [(e & Hrun & _)|Hrun]); rewrite Hrun.
  - cbn [snd log app]. apply Hup, Hlq.
  - rewrite build_tools_spec. cbn [cwd log app].
    destruct (tool w WHEEL_ARGS m2) as [[m3 c2]|]; [|apply Hup, Hlq].
    destruct (c2 =? 0)%Z.
    2:{ cbn [snd log]. apply Forall_app. split; [apply Hup, Hlq|repeat constructor]. }
    destruct (tool w SDIST_ARGS m3) as [[m4 c3]|]; cbn [snd log];
      (apply Forall_app; split; [apply Hup, Hlq|repeat constructor]).
Qed.

(** X13.  Without the force flag and with an operator who answers no,
    [build] takes nothing away: no rename and no recursive deletion is
    logged, whether the output directory has entries or not. *)
Theorem declined_build_removes_nothing (m : fs) version :
  operator w confirm_prompt = false ->
  Forall (fun e => is_removal_event e = false)
         (log (run (build w false version) m).2).
Proof.
  intros Hno. unfold run.
  destruct (m !! DIST_PATH) as [[doc|[|[name n] children]]|] eqn:Hdist.
  1, 2, 4: rewrite build_unoccupied
      by (cbn [cwd]; intros ? ? ? E; rewrite Hdist in E; discriminate);
    destruct (build_after_preparation_outcome version (State m []))
      as (r & m' & l' & Hrun & Hprep & _);
    rewrite Hrun; cbn [snd log app];
    (eapply Forall_impl; [exact Hprep|]);
    intros e H; destruct e; try discriminate; reflexivity.
  rewrite (build_occupied _ _ _ _ name n children) by exact Hdist.
  rewrite Hno. cbn [snd log app]. repeat constructor.
Qed.

(** X14.  An operator who agrees has the effect of the force flag: on an
    output directory with entries the run without the flag ends as the run
    with the flag does, in the same working directory, and logs the same
    after the question. *)
Theorem confirmed_build_is_forced_build (m : fs) version :
  occupied_dir m DIST_PATH ->
  operator w confirm_prompt = true ->
  run (build w false version) m
  = ((run (build w true version) m).1,
     State (cwd (run (build w true version) m).2)
           (Confirm confirm_prompt true :: log (run (build w true version) m).2)).
Proof.
  intros (name & n & children & Hdist) Hyes. unfold run.
  rewrite !(build_occupied _ _ _ _ name n children) by exact Hdist.
  rewrite Hyes. cbn [cwd log app].
  assert (Hblind : log_blind (clear_dist >> build_after_preparation w version)).
  { apply log_blind_bind; [apply log_blind_clear_dist|].
    intros _. apply log_blind_build_after_preparation. }
  rewrite (Hblind m [Confirm confirm_prompt true]). reflexivity.
Qed.

(** X15.  What an interrupted clearing left behind blocks the next one: when
    [dist_delete] is a directory with entries, a forced build of an output
    directory with entries raises at the rename; nothing is renamed,
    deleted or written and no tool is started. *)
Theorem forced_build_blocked_by_leftover (m : fs) version :
  occupied_dir m DIST_PATH ->
  occupied_dir m DIST_PATH_DELETE ->
  run (build w true version) m = (Raise DirectoryNotEmpty, State m []).
Proof.
  intros (name & n & children & Hdist) (name' & n' & children' & Hdel).
  unfold run. rewrite (build_occupied _ _ _ _ name n children) by exact Hdist.
  unfold bind. rewrite (clear_dist_spec _ name n children) by exact Hdist.
  cbn [cwd]. rewrite Hdel. reflexivity.
Qed.

End MoreBuild.

Lemma build_success_needs_both_tools_witness :
  exists pre b1 b2,
    Os.log (Release.run (Release.build Cases.all_quiet false "2.0.0") Sample.fresh).2
      = pre ++ [Os.CheckCall Release.WHEEL_ARGS b1 0;
                Os.CheckCall Release.SDIST_ARGS b2 0] /\
    Forall (fun e => Obs.is_tool_event e = false) pre /\
    Os.tool Cases.all_quiet Release.WHEEL_ARGS b1 = Some (b2, 0%Z) /\
    Os.tool Cases.all_quiet Release.SDIST_ARGS b2
      = Some (Os.cwd (Release.run (Release.build Cases.all_quiet false "2.0.0")
                        Sample.fresh).2, 0%Z).
Proof.
  apply (build_success_needs_both_tools Cases.all_quiet Sample.fresh false "2.0.0").
  vm_compute. reflexivity.
Defined.

Lemma build_stops_at_failing_wheel_witness :
  (Release.run (Release.build Cases.broken_wheel false "2.0.0") Sample.fresh).1
  = Os.Raise (Os.CalledProcessError 2).
Proof.
  edestruct (build_stops_at_failing_wheel Cases.broken_wheel Sample.fresh false "2.0.0")
    as [H _]; [| |exact H].
  - vm_compute. right. left. reflexivity.
  - discriminate.
Defined.

Lemma declined_build_removes_nothing_witness :
  Forall (fun e => Props.is_removal_event e = false)
    (Os.log (Release.run (Release.build Sample.published false "auto")
               Sample.after_build).2).
Proof.
  apply (declined_build_removes_nothing Sample.published Sample.after_build "auto").
  reflexivity.
Defined.

Lemma confirmed_build_is_forced_build_witness :
  Os.log (Release.run (Release.build Cases.agreeing false "auto") Sample.after_build).2
  = Os.Confirm "dist is not empty - delete contents?" true
      :: Os.log (Release.run (Release.build Cases.agreeing true "auto")
                   Sample.after_build).2.
Proof.
  rewrite (confirmed_build_is_forced_build Cases.agreeing Sample.after_build "auto").
  - reflexivity.
  - eexists _, _, _. vm_compute. reflexivity.
  - reflexivity.
Defined.

Lemma forced_build_blocked_by_leftover_witness :
  Release.run (Release.build Sample.published true "auto") Cases.interrupted
  = (Os.Raise Os.DirectoryNotEmpty, Os.State Cases.interrupted []).
Proof.
  apply (forced_build_blocked_by_leftover Sample.published Cases.interrupted "auto").
  - eexists _, _, _. vm_compute. reflexivity.
  - eexists _, _, _. vm_compute. reflexivity.
Defined.

(** ** The upload and check commands, beyond the claims *)

Section MoreUpload.
Import Os Release Obs Props.
Variable w : world.

(** X16.  With rebuild on, [upload] never asks the operator and never ends
    by [sys.exit]: it calls [build] with the force flag, so the question of
    [build] and its abort are out of reach. *)
Theorem upload_rebuild_never_asks (m : fs) release version :
  Forall (fun e => is_confirm_event e = false)
         (log (run (upload w release true version) m).2) /\
  (forall n, (run (upload w release true version) m).1 <> Raise (SystemExit n)).
Proof.
  destruct (forced_build_no_question w m version) as [Hlog Hexit].
  unfold run in *. rewrite upload_unfold. unfold bind.
  destruct (build w true version (State m [])) as [[[]|e] s1];
    cbn [fst snd] in *.
  - rewrite upload_step_spec.
    destruct (tool w (twine_args release) (cwd s1)) as [[m' code]|];
      cbn [fst snd log].
    + split; [|discriminate].
      apply Forall_app. split; [exact Hlog|repeat constructor].
    + split; [exact Hlog|discriminate].
  - split; [exact Hlog|exact Hexit].
Qed.

(** X17.  With rebuild on, twine is started only after a build that
    returned normally, and it is started in the directory that build left,
    with the arguments of the chosen index: nothing is uploaded after a
    failed build. *)
Theorem upload_only_after_successful_build (m : fs) release version args before :
  In (Popen args before) (log (run (upload w release true version) m).2) ->
  (run (build w true version) m).1 = Ret tt /\
  before = cwd (run (build w true version) m).2 /\
  args = twine_args release.
Proof.
  pose proof (build_log_no_upload w m true version) as Hlog.
  assert (Hnot : ~ In (Popen args before) (log (run (build w true version) m).2)).
  { intros Hin. rewrite Forall_forall in Hlog.
    apply list_elem_of_In in Hin. specialize (Hlog _ Hin). discriminate. }
  unfold run in *. rewrite upload_unfold. unfold bind.
  destruct (build w true version (State m [])) as [[[]|e] s1];
    cbn [fst snd] in *.
  - rewrite upload_step_spec.
    destruct (tool w (twine_args release) (cwd s1)) as [[m' code]|];
      cbn [snd log]; intros Hin; [|destruct (Hnot Hin)].
    apply in_app_or in Hin as [Hin|Hin]; [destruct (Hnot Hin)|].
    destruct Hin as [Hin|[Hin|[]]]; [|discriminate Hin].
    injection Hin as <- <-. auto.
  - intros Hin. destruct (Hnot Hin).
Qed.

(** X18.  A twine that cannot be started is fatal, unlike a twine that
    fails: when the upload step is reached and the program is not found,
    [upload] raises [FileNotFoundError] and the exit status is 1. *)
Theorem upload_needs_twine (m : fs) release (rebuild : bool) version :
  let s1 := if rebuild then (run (build w true version) m).2 else State m [] in
  (if rebuild then (run (build w true version) m).1 = Ret tt
   else occupied_dir m DIST_PATH) ->
  tool w (twine_args release) (cwd s1) = None ->
  run (upload w release rebuild version) m = (Raise FileNotFoundError, s1) /\
  exit_status (run (upload w release rebuild version) m).1 = 1%Z.
Proof.
  intros s1 Hreach Htool.
  assert (Hrun : run (upload w release rebuild version) m
                 = (Raise FileNotFoundError, s1)).
  { unfold run. rewrite upload_unfold. destruct rebuild.
    - unfold bind. unfold run in Hreach, s1.
      destruct (build w true version (State m [])) as [r s2].
      cbn [fst snd] in *. subst r s1.
      rewrite upload_step_spec, Htool. reflexivity.
    - destruct Hreach as (name & n & children & Hdist). cbn [cwd].
      rewrite Hdist. subst s1. rewrite upload_step_spec, Htool. reflexivity. }
  split; [exact Hrun|]. rewrite Hrun. reflexivity.
Qed.

(** X19.  Without artifacts (the output directory is missing or has no
    entries) [check] prints the guidance and returns normally; twine is not
    started and the working directory is untouched. *)
Theorem check_without_artifacts (m : fs) :
  absent_or_empty m DIST_PATH ->
  run (check w) m = (Ret tt, State m [Stdout NO_DIST_FILES]).
Proof.
  intros Hfree. unfold run, check. unfold bind at 1.
  rewrite dist_has_entries_spec. cbn [cwd].
  destruct Hfree as [H|H]; rewrite H; reflexivity.
Qed.

(** X20.  With artifacts [check] runs [twine check dist/*] once and its
    outcome is twine's: it returns normally when twine exits with 0 and
    raises [CalledProcessError] with twine's status otherwise, so the exit
    status of the script is 0 exactly when twine's is. *)
Theorem check_reports_twine_status (m : fs) m' code :
  occupied_dir m DIST_PATH ->
  tool w ["twine"; "check"; "dist/*"] m = Some (m', code) ->
  run (check w) m
    = (if (code =? 0)%Z then Ret tt else Raise (CalledProcessError code),
       State m' [CheckCall ["twine"; "check"; "dist/*"] m code]) /\
  (exit_status (run (check w) m).1 = 0%Z <-> code = 0%Z).
Proof.
  intros (name & n & children & Hdist) Htool.
  assert (Hrun : run (check w) m
    = (if (code =? 0)%Z then Ret tt else Raise (CalledProcessError code),
       State m' [CheckCall ["twine"; "check"; "dist/*"] m code])).
  { unfold run, check. unfold bind at 1.
    rewrite dist_has_entries_spec. cbn [cwd]. rewrite Hdist. cbn [negb].
    rewrite check_call_spec. cbn [cwd log]. rewrite Htool. reflexivity. }
  split; [exact Hrun|]. rewrite Hrun. cbn [fst].
  destruct (code =? 0)%Z eqn:E.
  - apply Z.eqb_eq in E. split; auto.
  - apply Z.eqb_neq in E. cbn. split; [discriminate|congruence].
Qed.

End MoreUpload.

Lemma upload_only_after_successful_build_witness :
  (Release.run (Release.build Sample.published true "auto") Sample.after_build).1
  = Os.Ret tt.
Proof.
  edestruct (upload_only_after_successful_build Sample.published Sample.after_build
               true "auto") as [H _]; [|exact H].
  vm_compute. do 7 right. left. reflexivity.
Defined.

Lemma upload_needs_twine_witness :
  (Release.run (Release.upload Cases.twine_missing true false "auto")
     Sample.after_build).1
  = Os.Raise Os.FileNotFoundError.
Proof.
  destruct (upload_needs_twine Cases.twine_missing Sample.after_build
              true false "auto") as [Hrun _].
  - eexists _, _, _. vm_compute. reflexivity.
  - reflexivity.
  - rewrite Hrun. reflexivity.
Defined.

Lemma check_without_artifacts_witness :
  Release.run (Release.check Sample.published) Sample.fresh
  = (Os.Ret tt,
     Os.State Sample.fresh
       [Os.Stdout "No distribution files found. Please run 'build' command first"]).
Proof.
  apply (check_without_artifacts Sample.published Sample.fresh).
  left. vm_compute. reflexivity.
Defined.

Lemma check_reports_twine_status_witness :
  Release.run (Release.check Sample.published) Sample.after_build
  = (Os.Raise (Os.CalledProcessError 1),
     Os.State Sample.after_build
       [Os.CheckCall ["twine"; "check"; "dist/*"] Sample.after_build 1]).
Proof.
  destruct (check_reports_twine_status Sample.published Sample.after_build
              Sample.after_build 1%Z) as [Hrun _].
  - eexists _, _, _. vm_compute. reflexivity.
  - reflexivity.
  - rewrite Hrun. reflexivity.
Defined.

(** ** The list command, beyond the claims *)

Section MoreListing.
Import Os Release Obs Props.
Variable w : world.

Lemma keeps_cwd_ret {A} (a : A) : keeps_cwd (ret a).
Proof. intros s. reflexivity. Qed.

Lemma keeps_cwd_raise {A} e : keeps_cwd (@raise A e).
Proof. intros s. reflexivity. Qed.

Lemma keeps_cwd_emit e : keeps_cwd (emit e).
Proof. intros s. reflexivity. Qed.

Lemma keeps_cwd_bind {A B} (c : M A) (k : A -> M B) :
  keeps_cwd c -> (forall a, keeps_cwd (k a)) -> keeps_cwd (bind c k).
Proof.
  intros Hc Hk s. unfold bind. specialize (Hc s).
  destruct (c s) as [[a|e] s1]; cbn [snd] in *.
  - rewrite (Hk a s1). exact Hc.
  - exact Hc.
Qed.

Lemma keeps_cwd_for_each {A} (xs : list A) (body : A -> M unit) :
  (forall x, keeps_cwd (body x)) -> keeps_cwd (for_each xs body).
Proof.
  intros Hbody. induction xs as [|x xs IH]; cbn [for_each].
  - apply keeps_cwd_ret.
  - apply keeps_cwd_bind; [apply Hbody|intros _; exact IH].
Qed.

Lemma keeps_cwd_fold_each {A B} (xs : list A) (body : B -> A -> M B) :
  (forall acc x, keeps_cwd (body acc x)) ->
  forall acc, keeps_cwd (fold_each xs acc body).
Proof.
  intros Hbody. induction xs as [|x xs IH]; intros acc; cbn [fold_each].
  - apply keeps_cwd_ret.
  - apply keeps_cwd_bind; [apply Hbody|intros acc'; apply IH].
Qed.

Ltac keeps :=
  repeat first
    [ apply keeps_cwd_ret | apply keeps_cwd_raise | apply keeps_cwd_emit
    | apply keeps_cwd_for_each | apply keeps_cwd_fold_each
    | apply keeps_cwd_bind | intro | case_match ].

Lemma keeps_cwd_list_release item : keeps_cwd (list_release item).
Proof.
  unfold list_release, scan_artifact, iterate, dict_get, str_join, format_line,
    format_right, print.
  keeps.
Qed.

Lemma keeps_cwd_list_releases : keeps_cwd (list_releases w).
Proof.
  unfold list_releases, requests_get, response_json, dict_get, dict_items, print.
  repeat first
    [ apply keeps_cwd_list_release | apply keeps_cwd_ret | apply keeps_cwd_raise
    | apply keeps_cwd_emit | apply keeps_cwd_for_each | apply keeps_cwd_bind
    | intro | case_match ].
Qed.

(** X21.  [list_releases] is read-only: for every answer of the package
    index, also one that makes it raise, the working directory after the
    command is the one before it. *)
Theorem list_releases_keeps_directory (m : fs) :
  cwd (run (list_releases w) m).2 = m.
Proof. apply (keeps_cwd_list_releases (State m [])). Qed.

(** X22.  A successful response without releases (the key ['releases'] is
    missing, or its value is empty or [null]) prints the no-releases line
    and returns normally. *)
Theorem list_releases_none_published (m : fs) (r : response) fields :
  index w (PYPI_URL PYPI_PACKAGE_NAME) = Some r ->
  response_ok r = true ->
  body r = Some (JObj fields) ->
  truthy (from_option id (JObj []) (assoc "releases" fields)) = false ->
  run (list_releases w) m
  = (Ret tt,
     State m [HttpGet (PYPI_URL PYPI_PACKAGE_NAME); ParseBody; Stdout NO_RELEASES]).
Proof.
  intros Hget Hok Hbody Hfalsy.
  unfold run, list_releases, requests_get, response_json, dict_get, print,
    bind, emit, ret.
  rewrite Hget. cbn [cwd log app]. rewrite Hok. cbn [cwd log app].
  rewrite Hbody. cbn [cwd log app]. rewrite Hfalsy. reflexivity.
Qed.

(** X23.  On a successful response in which every release has a list of
    well-formed descriptors that is not empty, [list_releases] prints one
    line per release, in the order of the mapping; each line shows the
    upload time of the last descriptor of the release, whether it is the
    latest time or not, and the labels in list order. *)
Theorem list_releases_prints_every_release (m : fs) (r : response)
    fields item items lines :
  index w (PYPI_URL PYPI_PACKAGE_NAME) = Some r ->
  response_ok r = true ->
  body r = Some (JObj fields) ->
  assoc "releases" fields = Some (JObj (item :: items)) ->
  mapM item_line (item :: items) = Some lines ->
  run (list_releases w) m
  = (Ret tt,
     State m (HttpGet (PYPI_URL PYPI_PACKAGE_NAME) :: ParseBody :: (Stdout <$> lines))) /\
  length lines = length (item :: items).
Proof.
  intros Hget Hok Hbody Hrel Hlines. split.
  - exact (list_releases_well_formed w m r fields item items lines
             Hget Hok Hbody Hrel Hlines).
  - symmetry. exact (length_mapM _ _ _ Hlines).
Qed.

Lemma for_each_app {A} (xs ys : list A) (body : A -> M unit) s :
  for_each (xs ++ ys) body s = (for_each xs body >> for_each ys body) s.
Proof.
  revert s. induction xs as [|x xs IH]; intros s; cbn [app for_each].
  - reflexivity.
  - unfold bind. destruct (body x s) as [[[]|e] s1]; [|reflexivity].
    rewrite IH. reflexivity.
Qed.

(** A release without artifacts cannot be printed. *)
Lemma list_release_empty version s :
  list_release (version, JArr []) s = (Raise TypeError, s).
Proof. reflexivity. Qed.

(** X24.  A release whose artifact list is empty ends the listing with
    [TypeError]: the lines of the releases before it have been printed,
    its own line and the lines of all releases after it are not. *)
Theorem list_releases_stops_at_release_without_files (m : fs) (r : response)
    fields good version rest lines :
  index w (PYPI_URL PYPI_PACKAGE_NAME) = Some r ->
  response_ok r = true ->
  body r = Some (JObj fields) ->
  assoc "releases" fields = Some (JObj (good ++ (version, JArr []) :: rest)) ->
  mapM item_line good = Some lines ->
  run (list_releases w) m
  = (Raise TypeError,
     State m (HttpGet (PYPI_URL PYPI_PACKAGE_NAME) :: ParseBody :: (Stdout <$> lines))).
Proof.
  intros Hget Hok Hbody Hrel Hlines.
  unfold run, list_releases, requests_get, response_json.
  rewrite Hget. unfold bind at 1. unfold bind at 1. unfold emit at 1.
  unfold ret at 1. cbn [cwd log app]. rewrite Hok.
  unfold bind at 1. unfold bind at 1. unfold emit at 1. cbn [cwd log app].
  rewrite Hbody. unfold ret at 1. unfold bind at 1.
  unfold dict_get at 1. rewrite Hrel. unfold ret at 1. cbn [from_option id truthy].
  rewrite bool_decide_eq_false_2 by (destruct good; discriminate). cbn [negb].
  unfold bind at 1. unfold dict_items, ret at 1.
  rewrite for_each_app. unfold bind at 1.
  rewrite (for_each_list_release good lines Hlines). cbn [cwd log app].
  cbn [for_each]. unfold bind at 1. rewrite list_release_empty. reflexivity.
Qed.

(** X25.  When no connection to the package index can be made, the
    exception of [requests.get] leaves the command: nothing is printed,
    the not-found line neither, and the exit status is 1. *)
Theorem list_releases_unreachable_index (m : fs) :
  index w (PYPI_URL PYPI_PACKAGE_NAME) = None ->
  run (list_releases w) m = (Raise ConnectionError, State m []) /\
  exit_status (run (list_releases w) m).1 = 1%Z.
Proof.
  intros Hget.
  assert (Hrun : run (list_releases w) m = (Raise ConnectionError, State m [])).
  { unfold run, list_releases, requests_get, bind. rewrite Hget. reflexivity. }
  split; [exact Hrun|]. rewrite Hrun. reflexivity.
Qed.

End MoreListing.

Lemma list_releases_none_published_witness :
  Release.run (Release.list_releases Cases.nothing_published) Sample.fresh
  = (Os.Ret tt,
     Os.State Sample.fresh
       [Os.HttpGet "https://pypi.org/pypi/pyo365/json"; Os.ParseBody;
        Os.Stdout "No releases found for pyo365"]).
Proof.
  apply (list_releases_none_published Cases.nothing_published Sample.fresh
           (Os.Response 200 (Some (Os.JObj [("releases", Os.JObj [])])))
           [("releases", Os.JObj [])]); reflexivity.
Defined.

Lemma list_releases_prints_every_release_witness :
  Os.log (Release.run (Release.list_releases Sample.published) Sample.fresh).2
  = [Os.HttpGet "https://pypi.org/pypi/pyo365/json"; Os.ParseBody;
     Os.Stdout "1.0.0     2020-01-01T00:05:00      sdist | bdist_wheel"].
Proof.
  edestruct (list_releases_prints_every_release Sample.published Sample.fresh
               (Os.Response 200 (Some Sample.example_releases)))
    as [Hrun _]; [reflexivity|reflexivity|reflexivity|reflexivity| |].
  - vm_compute. reflexivity.
  - rewrite Hrun. reflexivity.
Defined.

Lemma list_releases_stops_at_release_without_files_witness :
  Release.run (Release.list_releases Sample.with_empty_release) Sample.fresh
  = (Os.Raise Os.TypeError,
     Os.State Sample.fresh
       [Os.HttpGet "https://pypi.org/pypi/pyo365/json"; Os.ParseBody]).
Proof.
  eapply (list_releases_stops_at_release_without_files Sample.with_empty_release
            Sample.fresh (Os.Response 200 (Some Sample.releases_with_empty))
            _ [] "0.9.0" _ []); reflexivity.
Defined.

Lemma list_releases_unreachable_index_witness :
  Release.run (Release.list_releases Cases.all_quiet) Sample.fresh
  = (Os.Raise Os.ConnectionError, Os.State Sample.fresh []).
Proof.
  apply (list_releases_unreachable_index Cases.all_quiet Sample.fresh).
  reflexivity.
Defined.
